(** * Upstream aggregator and downstream storage facade: a shallow embedding

    This development embeds the two Flask services of the repository,
    [applications/api/app.py] (the upstream aggregator) and
    [applications/database/app.py] (the downstream storage facade with its
    Redis / in-memory backends and its fault catalog), and proves the
    properties stated about them.

    Conventions of the embedding.
    - A handler is a function from the service state, the parsed request and
      the answers of the outside world during that request (clock reading,
      reply of the other service, faults of the Redis link) to the new state
      and an [outcome]: either the [(body, status)] pair the handler returns
      or the exception that leaves it.
    - [time.sleep] calls and [print] calls are not modelled: they change
      neither the state nor the outcome.
    - Python [int] is [Z].  A Python [float] is carried as its binary64 bit
      pattern and never computed with. *)

From Stdlib Require Import ZArith List String Ascii Bool Lia.
From Stdlib Require Import DecimalString DecimalZ.
Import ListNotations.
Open Scope string_scope.
Open Scope Z_scope.
Set Warnings "-register-all".

(** ** Python values shared by both services *)

Module Py.

(** A Python float, as the 64 bits of its IEEE-754 binary64 encoding. *)
Record pyfloat := Float64 { float_bits : Z }.

(** The result of [request.get_json()] / [response.json()]: a JSON document
    as Python holds it ([None], [bool], [int], [float], [str], [list],
    [dict] with string keys, in insertion order). *)
Inductive json :=
| JNull
| JBool (b : bool)
| JInt (z : Z)
| JFloat (f : pyfloat)
| JStr (s : string)
| JArr (items : list json)
| JObj (fields : list (string * json)).

Inductive exn_class :=
| ZeroDivisionError | AttributeError | IndexError | ValueError | TypeError
| BuiltinTimeoutError | MemoryError | FileNotFoundError | JSONDecodeError
| RequestsTimeout | RequestsError | BaseException_Exception
| CustomApplicationError | RuntimeError | KeyError | OSError
| PermissionError
| RedisError | RedisConnectionError | RedisTimeoutError
| RedisResponseError | RedisDataError.

(** An exception object: its class and the message it carries (the text
    an f-string prints for it). *)
Inductive exn := Exn (cls : exn_class) (msg : string).

Definition exn_cls (e : exn) : exn_class := let (c, _) := e in c.
Definition exn_msg (e : exn) : string := let (_, m) := e in m.

Inductive pyresult (A : Type) :=
| Ok (a : A)
| Err (e : exn).
Arguments Ok {A} a.
Arguments Err {A} e.

(** What leaves a view function: [return jsonify(body), status] (status 200
    when the source gives none) or an exception that no [except] caught. *)
Inductive outcome :=
| Response (status : Z) (body : json)
| Raised (e : exn).

(** The status a client observes.  Neither service registers an error
    handler, so Flask answers an exception leaving a view with 500. *)
Definition http_status (o : outcome) : Z :=
  match o with
  | Response s _ => s
  | Raised _ => 500
  end.

(** Parts of the Python runtime and of redis-py that the services call and
    whose full definition lies outside the repository. *)
Record pylib := {
  (** [int(s)] on a string read back from Redis; [None] is [ValueError] *)
  lib_int : string -> option Z;
  (** [float(s)], likewise *)
  lib_float : string -> option pyfloat;
  (** [repr(x)] of a float, as redis-py encodes it and f-strings print it *)
  lib_repr_float : pyfloat -> string;
  (** [str(x)] of a list or a dict *)
  lib_str_compound : json -> string;
  (** the text of an exception raised inside a library *)
  lib_text : exn_class -> string;
  (** what [pickle.dumps] raises on an object that holds an open file
      (a [TypeError], by the comment in the source) *)
  lib_pickle_error : exn
}.

(** [str(z)] for an [int]. *)
Definition str_of_int (z : Z) : string := NilZero.string_of_int (Z.to_int z).

Definition float_is_zero (f : pyfloat) : bool :=
  (float_bits f =? 0) || (float_bits f =? 2 ^ 63).

(** Truth value of a JSON document ([not data] is its negation). *)
Definition truthy (v : json) : bool :=
  match v with
  | JNull => false
  | JBool b => b
  | JInt z => negb (z =? 0)
  | JFloat f => negb (float_is_zero f)
  | JStr s => negb (s =? "")%string
  | JArr l => match l with [] => false | _ => true end
  | JObj kv => match kv with [] => false | _ => true end
  end.

(** [d.get(k)] on the fields of a dict. *)
Fixpoint obj_get (k : string) (kv : list (string * json)) : option json :=
  match kv with
  | [] => None
  | (k', v) :: rest => if (k =? k')%string then Some v else obj_get k rest
  end.

(** [d.get(k, default)]. *)
Definition obj_get_default (k : string) (kv : list (string * json))
  (default : json) : json :=
  match obj_get k kv with
  | Some v => v
  | None => default
  end.

(** [sub in s] for two strings. *)
Fixpoint str_contains (sub s : string) : bool :=
  if prefix sub s then true
  else match s with
       | EmptyString => false
       | String _ rest => str_contains sub rest
       end.

Definition is_str (k : string) (v : json) : bool :=
  match v with
  | JStr s => (s =? k)%string
  | _ => false
  end.

(** [k in data] for a string [k]: key membership for a dict, element
    membership for a list, substring test for a string; the other JSON
    values are not iterable. *)
Definition py_in (L : pylib) (k : string) (data : json) : pyresult bool :=
  match data with
  | JObj kv => Ok (match obj_get k kv with Some _ => true | None => false end)
  | JArr l => Ok (existsb (is_str k) l)
  | JStr s => Ok (str_contains k s)
  | _ => Err (Exn TypeError (lib_text L TypeError))
  end.

(** [str(x)], as an f-string formats a JSON value. *)
Definition py_str (L : pylib) (v : json) : string :=
  match v with
  | JNull => "None"
  | JBool true => "True"
  | JBool false => "False"
  | JInt z => str_of_int z
  | JFloat f => lib_repr_float L f
  | JStr s => s
  | _ => lib_str_compound L v
  end.

Definition len {A} (l : list A) : Z := Z.of_nat (List.length l).

End Py.
Import Py.

(** ** [applications/api/app.py]: the upstream aggregator *)

Module Api.

(** A record of the module-level list [users]: [id] is always taken from
    [user_counter] and [created_at] from [time.time()]; [name] and [email]
    are whatever JSON values the request carried. *)
Record user := {
  id : Z;
  name : json;
  email : json;
  created_at : pyfloat
}.

Definition to_json (u : user) : json :=
  JObj [("id", JInt (id u)); ("name", name u); ("email", email u);
        ("created_at", JFloat (created_at u))].

(** The module globals. *)
Record state := {
  users : list user;
  user_counter : Z
}.

(** [users = []], [user_counter = 1]. *)
Definition initial : state := {| users := []; user_counter := 1 |}.

(** What a call through [requests] to another service comes back with: an
    exception (timeout, refused connection, ...) or a response with its
    status code and what [response.json()] gives ([None] when the body does
    not decode, which raises). *)
Inductive reply :=
| ReqRaises (e : exn)
| ReqAnswers (status : Z) (body : option json).

(** The outside world during one request. *)
Record world := {
  now : pyfloat;              (* time.time() *)
  downstream : reply;         (* the database service's answer *)
  in_main_thread : bool;      (* may signal.signal be called here *)
  alarm_fires : bool;         (* SIGALRM arrives before the loop ends *)
  alloc_fails : bool;         (* the 10**8 element list is refused *)
  httpbin : reply             (* answer of httpbin.org/delay/10 within 1s *)
}.

(** [GET /api/users] *)
Definition get_users (st : state) (w : world) : outcome :=
  let local := map to_json (users st) in
  let all_users :=
    match downstream w with
    | ReqRaises _ => local
    | ReqAnswers status body =>
        if status =? 200 then
          match body with
          | Some (JObj fields) =>
              match obj_get_default "users" fields (JArr []) with
              | JArr db => (local ++ db)%list
              | _ => local            (* list + non-list: TypeError, caught *)
              end
          | Some _ => local           (* no .get: AttributeError, caught *)
          | None => local             (* response.json() raised, caught *)
          end
        else local
    end in
  Response 200 (JObj [("users", JArr all_users);
                      ("count", JInt (len all_users));
                      ("source", JStr "api-service")]).

(** [data['name']] once the guard has let [data] through. *)
Definition subscript_name (L : pylib) (data : json) : pyresult json :=
  match data with
  | JObj fields =>
      match obj_get "name" fields with
      | Some v => Ok v
      | None => Err (Exn KeyError "'name'")
      end
  | _ => Err (Exn TypeError (lib_text L TypeError))
  end.

(** [data.get('email', '')]. *)
Definition get_email (L : pylib) (data : json) : pyresult json :=
  match data with
  | JObj fields => Ok (obj_get_default "email" fields (JStr ""))
  | _ => Err (Exn AttributeError (lib_text L AttributeError))
  end.

(** [POST /api/users].  The call to the database service that follows the
    local write only prints, whatever it comes back with. *)
Definition create_user (L : pylib) (st : state) (data : json) (w : world)
  : state * outcome :=
  let bad := Response 400 (JObj [("error", JStr "Name is required")]) in
  if negb (truthy data) then (st, bad)
  else
    match py_in L "name" data with
    | Err e => (st, Raised e)
    | Ok false => (st, bad)
    | Ok true =>
        match subscript_name L data with
        | Err e => (st, Raised e)
        | Ok nm =>
            match get_email L data with
            | Err e => (st, Raised e)
            | Ok em =>
                let u := {| id := user_counter st; name := nm; email := em;
                            created_at := now w |} in
                ({| users := (users st ++ [u])%list;
                    user_counter := user_counter st + 1 |},
                 Response 201 (to_json u))
            end
        end
    end.

(** [next((u for u in users if u['id'] == user_id), None)] *)
Definition find_user (st : state) (user_id : Z) : option user :=
  find (fun u => id u =? user_id) (users st).

(** [GET /api/users/<int:user_id>] *)
Definition get_user (st : state) (user_id : Z) : outcome :=
  match find_user st user_id with
  | None => Response 404 (JObj [("error", JStr "User not found")])
  | Some u => Response 200 (to_json u)
  end.

(** [DELETE /api/users/<int:user_id>] *)
Definition delete_user (st : state) (user_id : Z) (w : world)
  : state * outcome :=
  match find_user st user_id with
  | None => (st, Response 404 (JObj [("error", JStr "User not found")]))
  | Some _ =>
      ({| users := filter (fun u => negb (id u =? user_id)) (users st);
          user_counter := user_counter st |},
       Response 200
         (JObj [("message", JStr ("User " ++ str_of_int user_id ++ " deleted"))]))
  end.

(** The names [GET /api/errors/test?type=list] enumerates. *)
Definition available_errors : list string :=
  ["division_by_zero"; "null_pointer"; "index_out_of_bounds"; "type_error";
   "infinite_loop"; "memory_error"; "file_not_found"; "json_decode_error";
   "network_timeout"; "database_error"; "validation_error";
   "custom_exception"; "async_error"].

Definition lib_raise (L : pylib) (c : exn_class) : outcome :=
  Raised (Exn c (lib_text L c)).

(** [trigger_specific_error].  The fixed paths [/nonexistent/...] are taken
    not to exist. *)
Definition trigger_specific_error (L : pylib) (w : world)
  (error_type : string) : outcome :=
  if (error_type =? "division_by_zero")%string then
    lib_raise L ZeroDivisionError
  else if (error_type =? "null_pointer")%string then
    lib_raise L AttributeError
  else if (error_type =? "index_out_of_bounds")%string then
    lib_raise L IndexError
  else if (error_type =? "type_error")%string then
    lib_raise L ValueError
  else if (error_type =? "infinite_loop")%string then
    if negb (in_main_thread w) then lib_raise L ValueError
    else if alarm_fires w then
      Raised (Exn BuiltinTimeoutError "Loop execution timed out")
    else
      Response 200
        (JObj [("error", JStr "Infinite loop detected and stopped")])
  else if (error_type =? "memory_error")%string then
    if alloc_fails w then
      Raised (Exn MemoryError
                ("Failed to allocate memory: " ++ lib_text L MemoryError))
    else
      Response 200 (JObj [("result", JStr "Memory allocated successfully")])
  else if (error_type =? "file_not_found")%string then
    lib_raise L FileNotFoundError
  else if (error_type =? "json_decode_error")%string then
    lib_raise L JSONDecodeError
  else if (error_type =? "network_timeout")%string then
    match httpbin w with
    | ReqRaises (Exn RequestsTimeout m) =>
        Raised (Exn RequestsTimeout ("Network request timed out: " ++ m))
    | ReqRaises e => Raised e
    | ReqAnswers _ (Some j) => Response 200 (JObj [("response", j)])
    | ReqAnswers _ None => lib_raise L JSONDecodeError
    end
  else if (error_type =? "database_error")%string then
    Raised (Exn BaseException_Exception
              ("Database operation failed: "
               ++ lib_text L BaseException_Exception))
  else if (error_type =? "validation_error")%string then
    Raised (Exn ValueError "Invalid age: -5. Age must be positive.")
  else if (error_type =? "custom_exception")%string then
    Raised (Exn CustomApplicationError
              "This is a custom application error for testing")
  else if (error_type =? "async_error")%string then
    Raised (Exn RuntimeError "Async operation failed in background thread")
  else
    Raised (Exn ValueError
              ("Unknown error type: " ++ error_type
               ++ ". Use /api/errors/test to see available types.")).

(** [GET /api/errors/test]; [ty] is the [type] query parameter when the
    request has one. *)
Definition test_errors (L : pylib) (w : world) (ty : option string)
  : outcome :=
  let error_type := match ty with Some t => t | None => "list" end in
  if (error_type =? "list")%string then
    Response 200
      (JObj [("available_errors", JArr (map JStr available_errors));
             ("usage", JStr "/api/errors/test?type=<error_type>");
             ("example", JStr "/api/errors/test?type=division_by_zero")])
  else trigger_specific_error L w error_type.

(** *** Sequences of requests to the four user routes *)

Inductive request :=
| ListUsers
| CreateUser (data : json)
| GetUser (user_id : Z)
| DeleteUser (user_id : Z).

Definition handle (L : pylib) (st : state) (rq : request * world)
  : state * outcome :=
  let (r, w) := rq in
  match r with
  | ListUsers => (st, get_users st w)
  | CreateUser data => create_user L st data w
  | GetUser user_id => (st, get_user st user_id)
  | DeleteUser user_id => delete_user st user_id w
  end.

(** The state after serving the requests in turn. *)
Definition serve (L : pylib) (st : state) (rqs : list (request * world))
  : state :=
  fold_left (fun s rq => fst (handle L s rq)) rqs st.

(** [GET /health]; [scenario] is the [SCENARIO] environment variable. *)
Definition health_check (scenario : option string) : outcome :=
  Response 200
    (JObj [("status", JStr "healthy");
           ("service", JStr "api-service");
           ("scenario", JStr match scenario with
                             | Some s => s
                             | None => "default"
                             end);
           ("version", JStr "1.0.0")]).

End Api.

(** ** [applications/database/app.py]: the downstream storage facade *)

Module Database.

(** *** The Redis server, as the client library lets the service see it *)

Inductive rvalue :=
| RString (s : string)
| RHash (fields : list (string * string)).

(** A key's value and its time to live in seconds, if one is set.  The
    passing of time (and with it the expiry of keys) is not modelled. *)
Record rentry := { rval : rvalue; rttl : option Z }.

Definition rstore := list (string * rentry).

Fixpoint store_get (k : string) (s : rstore) : option rentry :=
  match s with
  | [] => None
  | (k', e) :: rest => if (k =? k')%string then Some e else store_get k rest
  end.

Fixpoint store_put (k : string) (e : rentry) (s : rstore) : rstore :=
  match s with
  | [] => [(k, e)]
  | (k', e') :: rest =>
      if (k =? k')%string then (k, e) :: rest
      else (k', e') :: store_put k e rest
  end.

Definition store_del (k : string) (s : rstore) : rstore :=
  filter (fun p => negb (k =? fst p)%string) s.

(** The link to the server during one request: the server's content and,
    for each command still to be sent, whether the link fails on it
    ([true]: the command raises a connection error and has no effect). *)
Record link := { store : rstore; faults : list bool }.

(** Code that talks to Redis: a state-and-exception monad over the link. *)
Definition redis (A : Type) : Type := link -> pyresult A * link.

Definition ret {A} (a : A) : redis A := fun k => (Ok a, k).
Definition throw {A} (e : exn) : redis A := fun k => (Err e, k).
Definition bind {A B} (c : redis A) (f : A -> redis B) : redis B :=
  fun k => match c k with
           | (Ok a, k') => f a k'
           | (Err e, k') => (Err e, k')
           end.

Notation "x <- c ;; f" := (bind c (fun x => f))
  (at level 61, c at next level, right associativity).

(** One round trip: the link may fail; otherwise the server runs [body]. *)
Definition command {A} (L : pylib) (body : rstore -> pyresult A * rstore)
  : redis A :=
  fun k =>
    match faults k with
    | true :: later =>
        (Err (Exn RedisConnectionError (lib_text L RedisConnectionError)),
         {| store := store k; faults := later |})
    | _ =>
        let (r, s') := body (store k) in
        (r, {| store := s'; faults := tl (faults k) |})
    end.

Definition wrong_type (L : pylib) : exn :=
  Exn RedisResponseError (lib_text L RedisResponseError).

(** [redis_client.keys('user:*')] *)
Definition keys_user (L : pylib) : redis (list string) :=
  command L (fun s => (Ok (filter (prefix "user:") (map fst s)), s)).

(** [redis_client.hgetall(key)]: the empty dict for a missing key. *)
Definition hgetall (L : pylib) (key : string)
  : redis (list (string * string)) :=
  command L (fun s =>
    match store_get key s with
    | None => (Ok [], s)
    | Some e => match rval e with
                | RHash h => (Ok h, s)
                | RString _ => (Err (wrong_type L), s)
                end
    end).

(** How redis-py turns a Python value into a field value: strings as they
    are, ints and floats by [repr]; anything else is a [DataError]. *)
Definition redis_encode (L : pylib) (v : json) : option string :=
  match v with
  | JStr s => Some s
  | JInt z => Some (str_of_int z)
  | JFloat f => Some (lib_repr_float L f)
  | _ => None
  end.

Fixpoint encode_mapping (L : pylib) (m : list (string * json))
  : option (list (string * string)) :=
  match m with
  | [] => Some []
  | (f, v) :: rest =>
      match redis_encode L v, encode_mapping L rest with
      | Some s, Some rest' => Some ((f, s) :: rest')
      | _, _ => None
      end
  end.

Fixpoint hash_get (f : string) (h : list (string * string)) : option string :=
  match h with
  | [] => None
  | (f', v) :: rest => if (f =? f')%string then Some v else hash_get f rest
  end.

Fixpoint hash_put (f v : string) (h : list (string * string))
  : list (string * string) :=
  match h with
  | [] => [(f, v)]
  | (f', v') :: rest =>
      if (f =? f')%string then (f, v) :: rest else (f', v') :: hash_put f v rest
  end.

Definition hash_update (old new : list (string * string))
  : list (string * string) :=
  fold_left (fun h fv => hash_put (fst fv) (snd fv) h) new old.

(** [redis_client.hset(key, mapping=m)]: sets the fields of the hash at
    [key], creating it when the key is missing. *)
Definition hset (L : pylib) (key : string) (m : list (string * json))
  : redis unit :=
  command L (fun s =>
    match encode_mapping L m with
    | None => (Err (Exn RedisDataError (lib_text L RedisDataError)), s)
    | Some enc =>
        match store_get key s with
        | None =>
            (Ok tt, store_put key {| rval := RHash enc; rttl := None |} s)
        | Some e =>
            match rval e with
            | RHash old =>
                (Ok tt, store_put key {| rval := RHash (hash_update old enc);
                                         rttl := rttl e |} s)
            | RString _ => (Err (wrong_type L), s)
            end
        end
    end).

(** [redis_client.expire(key, seconds)] *)
Definition expire (L : pylib) (key : string) (seconds : Z) : redis unit :=
  command L (fun s =>
    match store_get key s with
    | None => (Ok tt, s)
    | Some e =>
        (Ok tt, store_put key {| rval := rval e; rttl := Some seconds |} s)
    end).

(** [redis_client.exists(key)], as the truth value the service tests. *)
Definition exists_key (L : pylib) (key : string) : redis bool :=
  command L (fun s =>
    (Ok (match store_get key s with Some _ => true | None => false end), s)).

(** [redis_client.delete(key)] *)
Definition delete_key (L : pylib) (key : string) : redis unit :=
  command L (fun s => (Ok tt, store_del key s)).

(** [redis_client.set(key, value)] *)
Definition set_key (L : pylib) (key value : string) : redis unit :=
  command L (fun s =>
    (Ok tt, store_put key {| rval := RString value; rttl := None |} s)).

(** [redis_client.get(key)]: [None] for a missing key. *)
Definition get_key (L : pylib) (key : string) : redis (option string) :=
  command L (fun s =>
    match store_get key s with
    | None => (Ok None, s)
    | Some e => match rval e with
                | RString v => (Ok (Some v), s)
                | RHash _ => (Err (wrong_type L), s)
                end
    end).

(** *** A redis-py pipeline: commands are queued in the client and reach
    the server only when [execute] sends them, as one transaction. *)

Inductive queued := QSet (key value : string).

Record pipeline := {
  explicit_transaction : bool;
  command_stack : list queued
}.

Definition pipeline_new : pipeline :=
  {| explicit_transaction := false; command_stack := [] |}.

Definition pipe_multi (L : pylib) (p : pipeline) : pyresult pipeline :=
  if explicit_transaction p then
    Err (Exn RedisError "Cannot issue nested calls to MULTI")
  else
    match command_stack p with
    | [] => Ok {| explicit_transaction := true; command_stack := [] |}
    | _ => Err (Exn RedisError
                  "Commands without an initial WATCH have already been issued")
    end.

Definition pipe_set (key value : string) (p : pipeline) : pipeline :=
  {| explicit_transaction := explicit_transaction p;
     command_stack := (command_stack p ++ [QSet key value])%list |}.

Definition pipe_reset (p : pipeline) : pipeline := pipeline_new.

Definition apply_queued (s : rstore) (q : queued) : rstore :=
  match q with
  | QSet k v => store_put k {| rval := RString v; rttl := None |} s
  end.

Definition pipe_execute (L : pylib) (p : pipeline) : redis unit :=
  command L (fun s => (Ok tt, fold_left apply_queued (command_stack p) s)).

(** *** The in-memory fallback store *)

(** A key of the dict [memory_users].  [True] and [1] (and [False] and [0])
    are one key for a Python dict, so booleans are keyed by their integer
    value. *)
Inductive pykey :=
| KNone
| KInt (z : Z)
| KStr (s : string).

Definition key_eqb (a b : pykey) : bool :=
  match a, b with
  | KNone, KNone => true
  | KInt x, KInt y => x =? y
  | KStr x, KStr y => (x =? y)%string
  | _, _ => false
  end.

(** Using a JSON value as a dict key: lists and dicts are unhashable.  A
    float key (and the float arithmetic on the counter that follows it) is
    outside this model. *)
Inductive hashed :=
| Hashable (k : pykey)
| FloatKey
| Unhashable.

Definition hash_key (v : json) : hashed :=
  match v with
  | JNull => Hashable KNone
  | JBool b => Hashable (KInt (Z.b2z b))
  | JInt z => Hashable (KInt z)
  | JStr s => Hashable (KStr s)
  | JFloat _ => FloatKey
  | JArr _ | JObj _ => Unhashable
  end.

(** A dict in insertion order. *)
Definition pydict := list (pykey * json).

Fixpoint dict_get (k : pykey) (d : pydict) : option json :=
  match d with
  | [] => None
  | (k', v) :: rest => if key_eqb k k' then Some v else dict_get k rest
  end.

(** [d[k] = v]: an existing key keeps its place. *)
Fixpoint dict_set (k : pykey) (v : json) (d : pydict) : pydict :=
  match d with
  | [] => [(k, v)]
  | (k', v') :: rest =>
      if key_eqb k k' then (k', v) :: rest else (k', v') :: dict_set k v rest
  end.

(** [del d[k]] *)
Definition dict_del (k : pykey) (d : pydict) : pydict :=
  filter (fun p => negb (key_eqb k (fst p))) d.

Definition dict_values (d : pydict) : list json := map snd d.

(** *** The service *)

(** The module globals.  [redis_client] is [None] in Fallback mode; in
    External mode it holds the content of the server the client talks to. *)
Record state := {
  redis_client : option rstore;
  memory_users : pydict;
  memory_counter : Z
}.

(** The globals after start-up when the probe failed. *)
Definition initial_fallback : state :=
  {| redis_client := None; memory_users := []; memory_counter := 1 |}.

(** The globals after start-up when the probe succeeded against a server
    holding [s]. *)
Definition initial_external (s : rstore) : state :=
  {| redis_client := Some s; memory_users := []; memory_counter := 1 |}.

(** The outside world during one request. *)
Record world := {
  now : pyfloat;               (* time.time() *)
  link_faults : list bool;     (* faults of the Redis link, per command *)
  debug_sleep : option exn     (* how DEBUG SLEEP 10 ends, None: returns *)
}.

Definition with_store (st : state) (s : rstore) : state :=
  {| redis_client := Some s;
     memory_users := memory_users st;
     memory_counter := memory_counter st |}.

Definition run_redis {A} (s : rstore) (w : world) (c : redis A)
  : pyresult A * rstore :=
  let (r, k) := c {| store := s; faults := link_faults w |} in (r, store k).

(** ['redis' if redis_client else 'memory'] *)
Definition storage (st : state) : json :=
  match redis_client st with
  | Some _ => JStr "redis"
  | None => JStr "memory"
  end.

Definition error_body (msg : string) : json := JObj [("error", JStr msg)].

(** The dict the service rebuilds from a hash read back from Redis. *)
Definition user_of_hash (L : pylib) (h : list (string * string))
  : pyresult json :=
  let bad := Err (Exn ValueError (lib_text L ValueError)) in
  match match hash_get "id" h with
        | None => Some 0
        | Some s => lib_int L s
        end with
  | None => bad
  | Some i =>
      match match hash_get "created_at" h with
            | None => Some (Float64 0)
            | Some s => lib_float L s
            end with
      | None => bad
      | Some c =>
          let field f := match hash_get f h with
                         | Some s => JStr s
                         | None => JStr ""
                         end in
          Ok (JObj [("id", JInt i); ("name", field "name");
                    ("email", field "email"); ("created_at", JFloat c)])
      end
  end.

(** The loop of [get_users] over the keys. *)
Fixpoint fetch_users (L : pylib) (user_keys : list string) (acc : list json)
  : redis (list json) :=
  match user_keys with
  | [] => ret acc
  | key :: rest =>
      user_data <- hgetall L key ;;
      match user_data with
      | [] => fetch_users L rest acc
      | _ => match user_of_hash L user_data with
             | Ok u => fetch_users L rest (acc ++ [u])%list
             | Err e => throw e
             end
      end
  end.

Definition users_body (st : state) (us : list json) : json :=
  JObj [("users", JArr us); ("count", JInt (len us));
        ("source", JStr "database-service"); ("storage", storage st)].

(** [GET /database/users] *)
Definition get_users (L : pylib) (st : state) (w : world) : state * outcome :=
  match redis_client st with
  | Some s =>
      let (r, s') := run_redis s w
                       (user_keys <- keys_user L ;; fetch_users L user_keys [])
      in
      (with_store st s',
       match r with
       | Ok us => Response 200 (users_body st us)
       | Err _ => Response 500 (error_body "Failed to fetch users")
       end)
  | None => (st, Response 200 (users_body st (dict_values (memory_users st))))
  end.

(** The dict [user] that [create_user] builds from a dict body. *)
Definition new_user (st : state) (fields : list (string * json)) (w : world)
  : list (string * json) :=
  [("id", obj_get_default "id" fields (JInt (memory_counter st)));
   ("name", obj_get_default "name" fields JNull);   (* present: guarded *)
   ("email", obj_get_default "email" fields (JStr ""));
   ("created_at", obj_get_default "created_at" fields (JFloat (now w)))].

(** [max(memory_counter, user_id) + 1]: [None] when the comparison is a
    [TypeError]. *)
Definition next_counter (counter : Z) (user_id : json) : option Z :=
  match user_id with
  | JInt z => Some (Z.max counter z + 1)
  | JBool b => Some (Z.max counter (Z.b2z b) + 1)
  | _ => None
  end.

Definition created_body (st : state) (user : list (string * json)) : json :=
  JObj [("user", JObj user); ("storage", storage st)].

(** [POST /database/users].  The result is [None] when the request leaves
    the modelled fragment (a float [id] in Fallback mode). *)
Definition create_user (L : pylib) (st : state) (data : json) (w : world)
  : option (state * outcome) :=
  let bad := Response 400 (error_body "Name is required") in
  let failed := Response 500 (error_body "Failed to create user") in
  if negb (truthy data) then Some (st, bad)
  else
    match py_in L "name" data with
    | Err e => Some (st, Raised e)
    | Ok false => Some (st, bad)
    | Ok true =>
        match data with
        | JObj fields =>
            let user := new_user st fields w in
            let user_id := obj_get_default "id" fields
                             (JInt (memory_counter st)) in
            match redis_client st with
            | Some s =>
                let user_key := "user:" ++ py_str L user_id in
                let (r, s') := run_redis s w
                                 (_ <- hset L user_key user ;;
                                  expire L user_key 3600) in
                Some (with_store st s',
                      match r with
                      | Ok _ => Response 201 (created_body st user)
                      | Err _ => failed
                      end)
            | None =>
                match hash_key user_id with
                | Unhashable => Some (st, failed)
                | FloatKey => None
                | Hashable k =>
                    let stored := dict_set k (JObj user) (memory_users st) in
                    match next_counter (memory_counter st) user_id with
                    | Some c =>
                        Some ({| redis_client := None;
                                 memory_users := stored;
                                 memory_counter := c |},
                              Response 201 (created_body st user))
                    | None =>
                        Some ({| redis_client := None;
                                 memory_users := stored;
                                 memory_counter := memory_counter st |},
                              failed)
                    end
                end
            end
        | _ => Some (st, failed)       (* data.get: AttributeError, caught *)
        end
    end.

Definition user_key_of (user_id : Z) : string := "user:" ++ str_of_int user_id.

Definition found_body (st : state) (user : json) : json :=
  JObj [("user", user); ("storage", storage st)].

Definition not_found : outcome := Response 404 (error_body "User not found").

(** [GET /database/users/<int:user_id>] *)
Definition get_user (L : pylib) (st : state) (user_id : Z) (w : world)
  : state * outcome :=
  match redis_client st with
  | Some s =>
      let (r, s') := run_redis s w (hgetall L (user_key_of user_id)) in
      (with_store st s',
       match r with
       | Err _ => Response 500 (error_body "Failed to fetch user")
       | Ok [] => not_found
       | Ok user_data =>
           match user_of_hash L user_data with
           | Ok user => Response 200 (found_body st user)
           | Err _ => Response 500 (error_body "Failed to fetch user")
           end
       end)
  | None =>
      match dict_get (KInt user_id) (memory_users st) with
      | Some user =>
          if truthy user then (st, Response 200 (found_body st user))
          else (st, not_found)
      | None => (st, not_found)
      end
  end.

Definition deleted_body (st : state) (user_id : Z) : json :=
  JObj [("message", JStr ("User " ++ str_of_int user_id ++ " deleted"));
        ("storage", storage st)].

(** [DELETE /database/users/<int:user_id>] *)
Definition delete_user (L : pylib) (st : state) (user_id : Z) (w : world)
  : state * outcome :=
  let failed := Response 500 (error_body "Failed to delete user") in
  match redis_client st with
  | Some s =>
      let user_key := user_key_of user_id in
      let (r, s') :=
        run_redis s w
          (present <- exists_key L user_key ;;
           if present then (_ <- delete_key L user_key ;; ret true)
           else ret false) in
      (with_store st s',
       match r with
       | Err _ => failed
       | Ok false => not_found
       | Ok true => Response 200 (deleted_body st user_id)
       end)
  | None =>
      match dict_get (KInt user_id) (memory_users st) with
      | None => (st, not_found)
      | Some _ =>
          ({| redis_client := None;
              memory_users := dict_del (KInt user_id) (memory_users st);
              memory_counter := memory_counter st |},
           Response 200 (deleted_body st user_id))
      end
  end.

(** *** The fault catalog *)

(** The names [GET /database/errors/test?type=list] enumerates. *)
Definition available_errors : list string :=
  ["redis_connection_error"; "redis_timeout"; "redis_memory_error";
   "data_corruption"; "serialization_error"; "key_not_found";
   "transaction_rollback"; "connection_pool_exhausted"; "disk_full";
   "permission_denied"].

Definition lib_raise (L : pylib) (c : exn_class) : outcome :=
  Raised (Exn c (lib_text L c)).

(** ['x' * n] *)
Definition str_repeat (c : ascii) (n : N) : string :=
  N.iter n (String c) EmptyString.

Definition large_value : string := str_repeat "x"%char (100 * 1024 * 1024).

(** The [try] block of the [transaction_rollback] scenario, run on a fresh
    pipeline: what it ends with, the pipeline and the link it leaves.  The
    [raise] comes before [pipe.execute()], which is never reached. *)
Definition rollback_try (L : pylib) (pipe : pipeline) (k : link)
  : pyresult unit * pipeline * link :=
  match pipe_multi L pipe with
  | Err e => (Err e, pipe, k)
  | Ok p1 =>
      let p2 := pipe_set "tx_key1" "value1" p1 in
      let p3 := pipe_set "tx_key2" "value2" p2 in
      (Err (Exn BaseException_Exception "Transaction failed at step 2"), p3, k)
  end.

(** The whole [try ... except] of the scenario. *)
Definition rollback_scenario (L : pylib) (k : link) : outcome * pipeline * link :=
  match rollback_try L pipeline_new k with
  | (Err e, pipe, k') =>
      (Raised (Exn RuntimeError
                 ("Transaction rolled back due to error: " ++ exn_msg e)),
       pipe_reset pipe, k')
  | (Ok _, pipe, k') =>
      (* the view would return None, which Flask refuses *)
      (lib_raise L TypeError, pipe, k')
  end.

(** [trigger_database_error].  The host [nonexistent-redis-host] is taken
    not to resolve and [/dev/null] to exist; the value read back in
    [data_corruption] is the one just written, which is not JSON. *)
Definition trigger_database_error (L : pylib) (st : state) (w : world)
  (error_type : string) : state * outcome :=
  let on_redis {A} (s : rstore) (c : redis A) (k : A -> outcome)
      : state * outcome :=
    let (r, s') := run_redis s w c in
    (with_store st s',
     match r with
     | Ok a => k a
     | Err e => Raised e
     end) in
  if (error_type =? "redis_connection_error")%string then
    (st, lib_raise L RedisConnectionError)
  else if (error_type =? "redis_timeout")%string then
    match redis_client st with
    | Some _ =>
        match debug_sleep w with
        | Some e => (st, Raised e)
        | None =>
            (st, Response 200 (JObj [("result",
                                      JStr "Redis operation completed")]))
        end
    | None =>
        (st, Raised (Exn BuiltinTimeoutError
                       "Redis timeout simulation - Redis not available"))
    end
  else if (error_type =? "redis_memory_error")%string then
    match redis_client st with
    | Some s =>
        let (r, s') := run_redis s w (set_key L "large_key" large_value) in
        (with_store st s',
         match r with
         | Ok _ => Response 200 (JObj [("result", JStr "Large value stored")])
         | Err e => Raised (Exn MemoryError
                              ("Redis memory error: " ++ exn_msg e))
         end)
    | None =>
        (st, Raised (Exn MemoryError
                       "Redis memory error simulation - Redis not available"))
    end
  else if (error_type =? "data_corruption")%string then
    match redis_client st with
    | Some s =>
        on_redis s
          (_ <- set_key L "corrupted_user" "invalid:json:data:structure" ;;
           corrupted_data <- get_key L "corrupted_user" ;;
           match corrupted_data with
           | Some _ => throw (Exn JSONDecodeError (lib_text L JSONDecodeError))
           | None => throw (Exn TypeError (lib_text L TypeError))
           end)
          (fun parsed_data : json => Response 200 (JObj [("data", parsed_data)]))
    | None =>
        (st, Raised (Exn ValueError "Data corruption detected in user data"))
    end
  else if (error_type =? "serialization_error")%string then
    (st, Raised (lib_pickle_error L))
  else if (error_type =? "key_not_found")%string then
    match redis_client st with
    | Some s =>
        on_redis s
          (critical_data <- get_key L "critical_config_key" ;;
           match critical_data with
           | None =>
               throw (Exn KeyError
                        "Critical configuration key 'critical_config_key' not found in database")
           | Some v => ret v
           end)
          (fun v => Response 200 (JObj [("data", JStr v)]))
    | None =>
        (st, Raised (Exn KeyError
                       "Critical key not found - Redis not available"))
    end
  else if (error_type =? "transaction_rollback")%string then
    match redis_client st with
    | Some s =>
        let '(o, _, k) :=
          rollback_scenario L {| store := s; faults := link_faults w |} in
        (with_store st (store k), o)
    | None =>
        (st, Raised (Exn RuntimeError
                       "Transaction rollback simulation - Redis not available"))
    end
  else if (error_type =? "connection_pool_exhausted")%string then
    (st, Raised (Exn RedisConnectionError
                   "Connection pool exhausted - all connections in use"))
  else if (error_type =? "disk_full")%string then
    (st, Raised (Exn OSError
                   "No space left on device - cannot write to database"))
  else if (error_type =? "permission_denied")%string then
    (st, Raised (Exn PermissionError
                   "Permission denied - cannot access database files"))
  else
    (st, Raised (Exn ValueError
                   ("Unknown database error type: " ++ error_type
                    ++ ". Use /database/errors/test to see available types."))).

(** [GET /database/errors/test]; [ty] is the [type] query parameter when
    the request has one. *)
Definition test_database_errors (L : pylib) (st : state) (w : world)
  (ty : option string) : state * outcome :=
  let error_type := match ty with Some t => t | None => "list" end in
  if (error_type =? "list")%string then
    (st, Response 200
           (JObj [("available_errors", JArr (map JStr available_errors));
                  ("usage", JStr "/database/errors/test?type=<error_type>");
                  ("example",
                   JStr "/database/errors/test?type=redis_connection_error")]))
  else trigger_database_error L st w error_type.

(** *** Sequences of requests to the four user routes *)

Inductive request :=
| ListUsers
| CreateUser (data : json)
| GetUser (user_id : Z)
| DeleteUser (user_id : Z).

Definition handle (L : pylib) (st : state) (rq : request * world)
  : option (state * outcome) :=
  let (r, w) := rq in
  match r with
  | ListUsers => Some (get_users L st w)
  | CreateUser data => create_user L st data w
  | GetUser user_id => Some (get_user L st user_id w)
  | DeleteUser user_id => Some (delete_user L st user_id w)
  end.

(** The state after serving the requests in turn. *)
Fixpoint serve (L : pylib) (st : state) (rqs : list (request * world))
  : option state :=
  match rqs with
  | [] => Some st
  | rq :: rest =>
      match handle L st rq with
      | Some (st', _) => serve L st' rest
      | None => None
      end
  end.

(** *** The remaining routes, and start-up *)

(** The start-up probe (the [try] around the connection): [redis_port] is
    the [REDIS_PORT] environment variable, [ping] how [redis_client.ping()]
    ends ([None]: it returns) and [server] what the server then holds. *)
Definition startup (L : pylib) (redis_port : option string)
  (ping : option exn) (server : rstore) : state :=
  match match redis_port with
        | None => Some 6379
        | Some s => lib_int L s
        end with
  | None => initial_fallback              (* int() raised: caught *)
  | Some _ =>
      match ping with
      | None => initial_external server
      | Some _ => initial_fallback        (* ping raised: caught *)
      end
  end.

(** [GET /health]; [scenario] is the [SCENARIO] environment variable. *)
Definition health_check (st : state) (scenario : option string) : outcome :=
  Response 200
    (JObj [("status", JStr "healthy");
           ("service", JStr "database-service");
           ("scenario", JStr match scenario with
                             | Some s => s
                             | None => "default"
                             end);
           ("version", JStr "1.0.0");
           ("storage", storage st)]).

(** [redis_client.info()], which the server answers with [reply]. *)
Definition info (L : pylib) (reply : list (string * json))
  : redis (list (string * json)) :=
  command L (fun s => (Ok reply, s)).

Definition memory_stats (st : state) : json :=
  JObj [("total_users", JInt (len (memory_users st)));
        ("storage", JStr "memory");
        ("memory_info",
         JObj [("user_count", JInt (len (memory_users st)))])].

Definition redis_stats (user_keys : list string)
  (i1 i2 : list (string * json)) : json :=
  JObj [("total_users", JInt (len user_keys));
        ("storage", JStr "redis");
        ("redis_info",
         JObj [("used_memory",
                obj_get_default "used_memory_human" i1 (JStr "N/A"));
               ("connected_clients",
                obj_get_default "connected_clients" i2 (JInt 0))])].

(** [GET /database/stats]; [info1] and [info2] are the server's answers to
    the two [info()] calls. *)
Definition get_stats (L : pylib) (st : state) (w : world)
  (info1 info2 : list (string * json)) : state * outcome :=
  match redis_client st with
  | Some s =>
      let (r, s') :=
        run_redis s w
          (user_keys <- keys_user L ;;
           i1 <- info L info1 ;;
           i2 <- info L info2 ;;
           ret (redis_stats user_keys i1 i2)) in
      (with_store st s',
       match r with
       | Ok stats => Response 200 stats
       | Err _ => Response 500 (error_body "Failed to get stats")
       end)
  | None => (st, Response 200 (memory_stats st))
  end.

(** *** Sequences of requests to all the modelled routes *)

Inductive call :=
| Users (r : request)
| Health (scenario : option string)
| Stats (info1 info2 : list (string * json))
| TestErrors (ty : option string).

Definition handle_call (L : pylib) (st : state) (c : call * world)
  : option (state * outcome) :=
  let (r, w) := c in
  match r with
  | Users rq => handle L st (rq, w)
  | Health scenario => Some (st, health_check st scenario)
  | Stats info1 info2 => Some (get_stats L st w info1 info2)
  | TestErrors ty => Some (test_database_errors L st w ty)
  end.

(** The state after serving the calls in turn. *)
Fixpoint serve_calls (L : pylib) (st : state) (cs : list (call * world))
  : option state :=
  match cs with
  | [] => Some st
  | c :: rest =>
      match handle_call L st c with
      | Some (st', _) => serve_calls L st' rest
      | None => None
      end
  end.

End Database.

(** ** Predicates used in the statements, and sample inputs *)

Definition opt_is (p : json -> bool) (o : option json) : bool :=
  match o with
  | None => true
  | Some v => p v
  end.

Definition is_jint (v : json) : bool :=
  match v with JInt _ => true | _ => false end.


(** The link does not fail during the request. *)
Definition calm (w : Database.world) : bool :=
  forallb negb (Database.link_faults w).





(** What the upstream service receives when the downstream one returns
    [o] (a JSON body with its status). *)
Definition as_reply (o : outcome) : Api.reply :=
  match o with
  | Response status body => Api.ReqAnswers status (Some body)
  | Raised _ => Api.ReqAnswers 500 None
  end.



(** The outcome is a response whose status is one of [allowed]. *)
Definition status_among (allowed : list Z) (o : outcome) : Prop :=
  match o with
  | Response s _ => In s allowed
  | Raised _ => False
  end.

Module Sample.

(** A runtime to run examples with: integers are read and printed in
    decimal; a float is printed as the decimal of its bit pattern. *)
Definition lib : pylib :=
  {| lib_int := fun s => option_map Z.of_int (NilZero.int_of_string s);
     lib_float := fun s => option_map (fun i => Float64 (Z.of_int i))
                             (NilZero.int_of_string s);
     lib_repr_float := fun f => str_of_int (float_bits f);
     lib_str_compound := fun _ => "[...]";
     lib_text := fun _ => "";
     lib_pickle_error :=
       Exn TypeError "cannot pickle '_io.TextIOWrapper' object" |}.

Definition noon : pyfloat := Float64 4744202124835160064.

Definition db_world : Database.world :=
  {| Database.now := noon; Database.link_faults := [];
     Database.debug_sleep := None |}.

(** A request during which the link fails on the first command. *)
Definition db_outage : Database.world :=
  {| Database.now := noon; Database.link_faults := [true];
     Database.debug_sleep := None |}.

Definition unreachable : Api.reply :=
  Api.ReqRaises (Exn RequestsError "connection refused").

Definition api_world (r : Api.reply) : Api.world :=
  {| Api.now := noon; Api.downstream := r; Api.in_main_thread := true;
     Api.alarm_fires := false; Api.alloc_fails := false;
     Api.httpbin := unreachable |}.

Definition ada : json := JObj [("name", JStr "Ada")].


Definition record (i : json) (n : string) : json :=
  JObj [("id", i); ("name", JStr n); ("email", JStr "");
        ("created_at", JFloat noon)].

Definition ada_record : json := record (JInt 1) "Ada".

Definition fallback (d : Database.pydict) (c : Z) : Database.state :=
  {| Database.redis_client := None; Database.memory_users := d;
     Database.memory_counter := c |}.

(** A fresh store after [POST {name: Ada}], and after
    [POST {name: Bob, id: 1}] on top of it. *)
Definition state_ada : Database.state :=
  fallback [(Database.KInt 1, ada_record)] 2.



(** External mode with Ada's record under [user:1]. *)
Definition external_ada : Database.state :=
  Database.initial_external
    [("user:1",
      {| Database.rval :=
           Database.RHash [("id", "1"); ("name", "Ada"); ("email", "");
                           ("created_at", "4744202124835160064")];
         Database.rttl := Some 3600 |})].

End Sample.

(** ** The two services together

    The upstream service mirrors its writes into the downstream one: after
    the local write it posts the new record to [/database/users], or sends
    a [DELETE] for the id, and ignores what comes back. *)

Module System.

Record state := {
  api : Api.state;
  db : Database.state
}.

(** Both services freshly started, the downstream one in Fallback mode. *)
Definition initial : state :=
  {| api := Api.initial; db := Database.initial_fallback |}.

(** The network between the two services during one upstream request: the
    downstream service is reached, and serves the call in the world [dw],
    or the call raises (timeout, refused connection). *)
Inductive net :=
| Reached (dw : Database.world)
| Failed (e : exn).

Definition with_downstream (aw : Api.world) (r : Api.reply) : Api.world :=
  {| Api.now := Api.now aw; Api.downstream := r;
     Api.in_main_thread := Api.in_main_thread aw;
     Api.alarm_fires := Api.alarm_fires aw;
     Api.alloc_fails := Api.alloc_fails aw;
     Api.httpbin := Api.httpbin aw |}.

(** [GET /api/users], the downstream listing being served by the
    database service. *)
Definition get_users (L : pylib) (s : state) (aw : Api.world) (n : net)
  : state * outcome :=
  match n with
  | Reached dw =>
      let (dst, o) := Database.get_users L (db s) dw in
      ({| api := api s; db := dst |},
       Api.get_users (api s) (with_downstream aw (as_reply o)))
  | Failed e =>
      (s, Api.get_users (api s) (with_downstream aw (Api.ReqRaises e)))
  end.

(** [POST /api/users]: the 201 is the one path of the handler that goes on
    to post the new record (the body of the 201) downstream. *)
Definition create_user (L : pylib) (s : state) (data : json)
  (aw : Api.world) (n : net) : option (state * outcome) :=
  let (ast, o) := Api.create_user L (api s) data aw in
  match o, n with
  | Response status user, Reached dw =>
      if status =? 201 then
        match Database.create_user L (db s) user dw with
        | Some (dst, _) => Some ({| api := ast; db := dst |}, o)
        | None => None
        end
      else Some ({| api := ast; db := db s |}, o)
  | _, _ => Some ({| api := ast; db := db s |}, o)
  end.

(** [DELETE /api/users/<int:user_id>]: the 200 is the one path that goes
    on to delete downstream. *)
Definition delete_user (L : pylib) (s : state) (user_id : Z)
  (aw : Api.world) (n : net) : state * outcome :=
  let (ast, o) := Api.delete_user (api s) user_id aw in
  match o, n with
  | Response status _, Reached dw =>
      if status =? 200 then
        ({| api := ast;
            db := fst (Database.delete_user L (db s) user_id dw) |}, o)
      else ({| api := ast; db := db s |}, o)
  | _, _ => ({| api := ast; db := db s |}, o)
  end.

Inductive request :=
| ListUsers
| CreateUser (data : json)
| DeleteUser (user_id : Z).

Definition handle (L : pylib) (s : state) (rq : request * Api.world * net)
  : option (state * outcome) :=
  let '(r, aw, n) := rq in
  match r with
  | ListUsers => Some (get_users L s aw n)
  | CreateUser data => create_user L s data aw n
  | DeleteUser user_id => Some (delete_user L s user_id aw n)
  end.

Fixpoint serve (L : pylib) (s : state)
  (rqs : list (request * Api.world * net)) : option state :=
  match rqs with
  | [] => Some s
  | rq :: rest =>
      match handle L s rq with
      | Some (s', _) => serve L s' rest
      | None => None
      end
  end.

(** Every call of the sequence reaches the downstream service. *)
Definition all_reached (rqs : list (request * Api.world * net)) : bool :=
  forallb (fun rq => match snd rq with
                     | Reached _ => true
                     | Failed _ => false
                     end) rqs.

End System.

(** ** Invariants and notions used in the further properties *)

(** The ids of the upstream users are pairwise distinct, at least 1 and
    below the counter. *)
Definition api_inv (st : Api.state) : Prop :=
  NoDup (map Api.id (Api.users st)) /\
  1 <= Api.user_counter st /\
  forall u, In u (Api.users st) -> 1 <= Api.id u < Api.user_counter st.


(** The keys that [keys('user:*')] answers with, in the order of the
    store. *)
Definition user_keys (s : Database.rstore) : list string :=
  filter (prefix "user:") (map fst s).

(** What the loop of [get_users] computes from the store when the link
    does not fail: the records of the keys in turn, skipping the keys that
    hold no hash fields, and stopping at the first key that holds a plain
    string or fields that do not decode. *)
Fixpoint decode_users (L : pylib) (s : Database.rstore)
  (keys : list string) (acc : list json) : pyresult (list json) :=
  match keys with
  | [] => Ok acc
  | key :: rest =>
      match Database.store_get key s with
      | None => decode_users L s rest acc
      | Some e =>
          match Database.rval e with
          | Database.RString _ => Err (Database.wrong_type L)
          | Database.RHash [] => decode_users L s rest acc
          | Database.RHash h =>
              match Database.user_of_hash L h with
              | Ok u => decode_users L s rest (acc ++ [u])%list
              | Err e => Err e
              end
          end
      end
  end.

(** [key] holds what makes the listing fail: a plain string, or hash
    fields from which no record can be rebuilt. *)
Definition undecodable (L : pylib) (s : Database.rstore) (key : string)
  : Prop :=
  exists e,
    Database.store_get key s = Some e /\
    match Database.rval e with
    | Database.RString _ => True
    | Database.RHash h =>
        h <> [] /\ exists x, Database.user_of_hash L h = Err x
    end.

(** [key] holds hash fields from which the record [u] is rebuilt. *)
Definition decodes_to (L : pylib) (s : Database.rstore) (key : string)
  (u : json) : Prop :=
  exists h ttl,
    Database.store_get key s =
    Some {| Database.rval := Database.RHash h; Database.rttl := ttl |} /\
    h <> [] /\ Database.user_of_hash L h = Ok u.

(** A field of a JSON object. *)
Definition field (k : string) (body : json) : option json :=
  match body with
  | JObj fields => obj_get k fields
  | _ => None
  end.

(** The entry of the downstream map that mirrors an upstream user. *)
Definition mirror (u : Api.user) : Database.pykey * json :=
  (Database.KInt (Api.id u), Api.to_json u).

(** The downstream service is in Fallback mode and its map holds the
    upstream users, in the same order. *)
Definition in_sync (s : System.state) : Prop :=
  Database.redis_client (System.db s) = None /\
  Database.memory_users (System.db s) = map mirror (Api.users (System.api s)).

(** The request as the upstream service alone sees it. *)
Definition upstream_of (r : System.request) : Api.request :=
  match r with
  | System.ListUsers => Api.ListUsers
  | System.CreateUser data => Api.CreateUser data
  | System.DeleteUser user_id => Api.DeleteUser user_id
  end.

(** * Properties *)

(** ** Helper lemmas *)

Lemma existsb_eqb_In (x : string) (l : list string) :
  existsb (String.eqb x) l = true -> In x l.
Proof.
  intros H. apply existsb_exists in H. destruct H as [y [Hy E]].
  apply String.eqb_eq in E. now subst.
Qed.

(** Discharges one test of the dispatcher's [if]/[elif] chain for a name
    that is not in the catalog. *)
Ltac not_this_scenario H :=
  match goal with
  | |- context [String.eqb ?x ?s] =>
      destruct (String.eqb_spec x s) as [->|_];
      [exfalso; apply H; apply existsb_eqb_In; reflexivity|]
  end.

Lemma api_trigger_unknown (L : pylib) (w : Api.world) (name : string) :
  ~ In name Api.available_errors ->
  Api.trigger_specific_error L w name =
  Raised (Exn ValueError
            ("Unknown error type: " ++ name
             ++ ". Use /api/errors/test to see available types.")).
Proof.
  intros H. unfold Api.trigger_specific_error.
  repeat not_this_scenario H. reflexivity.
Qed.

Lemma database_trigger_unknown (L : pylib) (st : Database.state)
  (w : Database.world) (name : string) :
  ~ In name Database.available_errors ->
  Database.trigger_database_error L st w name =
  (st, Raised (Exn ValueError
                 ("Unknown database error type: " ++ name
                  ++ ". Use /database/errors/test to see available types."))).
Proof.
  intros H. unfold Database.trigger_database_error.
  repeat not_this_scenario H. reflexivity.
Qed.

(** ** C1: unknown scenario names *)

(** C1, as stated, fails: for the name [bogus], which neither catalog
    holds, the endpoint of either service lets a [ValueError] escape, which
    the client sees as a 500 and not as a 400 response. *)
Lemma C1_unknown_name_is_not_a_400 :
  ~ In "bogus" Api.available_errors /\
  ~ In "bogus" Database.available_errors /\
  http_status (Api.test_errors Sample.lib (Sample.api_world Sample.unreachable)
                 (Some "bogus")) <> 400 /\
  http_status (snd (Database.test_database_errors Sample.lib
                      Database.initial_fallback Sample.db_world
                      (Some "bogus"))) <> 400.
Proof.
  repeat split; try (vm_compute; intuition discriminate).
Qed.

(** C1, amended: for a scenario name that is neither [list] nor in the
    catalog, the endpoint of either service raises the [ValueError] that
    names the unknown type, changes no state, and is answered with 500. *)
Theorem C1_unknown_scenario_raises (L : pylib) (name : string) :
  name <> "list" ->
  (~ In name Api.available_errors ->
   forall w,
     Api.test_errors L w (Some name) =
     Raised (Exn ValueError
               ("Unknown error type: " ++ name
                ++ ". Use /api/errors/test to see available types.")) /\
     http_status (Api.test_errors L w (Some name)) = 500) /\
  (~ In name Database.available_errors ->
   forall st w,
     Database.test_database_errors L st w (Some name) =
     (st, Raised (Exn ValueError
                    ("Unknown database error type: " ++ name
                     ++ ". Use /database/errors/test to see available types.")))
     /\ http_status (snd (Database.test_database_errors L st w (Some name)))
        = 500).
Proof.
  intros Hlist. split; intros Hnot.
  - intros w. unfold Api.test_errors.
    destruct (String.eqb_spec name "list") as [E|_]; [contradiction|].
    rewrite api_trigger_unknown by assumption. split; reflexivity.
  - intros st w. unfold Database.test_database_errors.
    destruct (String.eqb_spec name "list") as [E|_]; [contradiction|].
    rewrite database_trigger_unknown by assumption. split; reflexivity.
Qed.

Lemma C1_unknown_scenario_raises_witness :
  "bogus" <> "list" /\
  ~ In "bogus" Api.available_errors /\
  ~ In "bogus" Database.available_errors /\
  Api.test_errors Sample.lib (Sample.api_world Sample.unreachable)
    (Some "bogus") =
  Raised (Exn ValueError
            "Unknown error type: bogus. Use /api/errors/test to see available types.")
  /\
  snd (Database.test_database_errors Sample.lib Database.initial_fallback
         Sample.db_world (Some "bogus")) =
  Raised (Exn ValueError
            "Unknown database error type: bogus. Use /database/errors/test to see available types.").
Proof.
  assert (H1 : "bogus" <> "list") by discriminate.
  assert (H2 : ~ In "bogus" Api.available_errors)
    by (simpl; intuition discriminate).
  assert (H3 : ~ In "bogus" Database.available_errors)
    by (simpl; intuition discriminate).
  destruct (C1_unknown_scenario_raises Sample.lib "bogus" H1) as [A D].
  split; [exact H1|]. split; [exact H2|]. split; [exact H3|]. split.
  - exact (proj1 (A H2 (Sample.api_world Sample.unreachable))).
  - rewrite (proj1 (D H3 Database.initial_fallback Sample.db_world)).
    reflexivity.
Defined.

(** ** C4: the merged listing degrades to the local records *)

Lemma database_list_outcome (L : pylib) (st : Database.state)
  (w : Database.world) :
  (exists us, snd (Database.get_users L st w) =
              Response 200 (Database.users_body st us)) \/
  snd (Database.get_users L st w) =
  Response 500 (Database.error_body "Failed to fetch users").
Proof.
  unfold Database.get_users.
  destruct (Database.redis_client st) as [s|].
  - destruct (Database.run_redis s w _) as [[us|e] s']; simpl.
    + left. now exists us.
    + now right.
  - left. now eexists.
Qed.

(** C4: in every state the upstream service reaches, [GET /api/users]
    answers 200 whatever the downstream call comes back with; when the call
    raises or its status is not 200 the [users] are exactly the local
    records, and when the downstream listing succeeds they are the local
    records followed by the downstream ones. *)
Theorem C4_list_merged_degrades (L : pylib)
  (rqs : list (Api.request * Api.world)) (w : Api.world) :
  let st := Api.serve L Api.initial rqs in
  let local := map Api.to_json (Api.users st) in
  exists all,
    Api.get_users st w =
    Response 200 (JObj [("users", JArr all); ("count", JInt (len all));
                        ("source", JStr "api-service")]) /\
    (forall e, Api.downstream w = Api.ReqRaises e -> all = local) /\
    (forall status body,
        Api.downstream w = Api.ReqAnswers status body ->
        status <> 200 -> all = local) /\
    (forall fields db,
        Api.downstream w = Api.ReqAnswers 200 (Some (JObj fields)) ->
        obj_get "users" fields = Some (JArr db) ->
        all = (local ++ db)%list /\
        forall u, In u all <-> In u local \/ In u db) /\
    (forall L' dst dw,
        Api.downstream w = as_reply (snd (Database.get_users L' dst dw)) ->
        (exists us,
            snd (Database.get_users L' dst dw) =
            Response 200 (Database.users_body dst us) /\
            all = (local ++ us)%list) \/
        (http_status (snd (Database.get_users L' dst dw)) = 500 /\
         all = local)).
Proof.
  intros st local. unfold Api.get_users. fold local.
  match goal with
  | |- context [Response 200 (JObj [("users", JArr ?a); _; _])] =>
      set (all := a)
  end.
  exists all. split; [reflexivity|]. subst all.
  split; [|split; [|split]].
  - intros e ->. reflexivity.
  - intros status body -> Hs.
    destruct (Z.eqb_spec status 200); [contradiction|reflexivity].
  - intros fields db -> Hu. simpl.
    unfold obj_get_default. rewrite Hu. split; [reflexivity|].
    intros u. apply in_app_iff.
  - intros L' dst dw ->.
    destruct (database_list_outcome L' dst dw) as [[us E]|E]; rewrite E.
    + left. exists us. split; reflexivity.
    + right. split; reflexivity.
Qed.

Lemma C4_list_merged_degrades_witness :
  Api.get_users
    (Api.serve Sample.lib Api.initial
       [(Api.CreateUser Sample.ada, Sample.api_world Sample.unreachable)])
    (Sample.api_world Sample.unreachable) =
  Response 200
    (JObj [("users",
            JArr [JObj [("id", JInt 1); ("name", JStr "Ada");
                        ("email", JStr "");
                        ("created_at", JFloat Sample.noon)]]);
           ("count", JInt 1); ("source", JStr "api-service")]).
Proof.
  destruct (C4_list_merged_degrades Sample.lib
              [(Api.CreateUser Sample.ada, Sample.api_world Sample.unreachable)]
              (Sample.api_world Sample.unreachable))
    as [all [E [Hraise _]]].
  rewrite E.
  rewrite (Hraise (Exn RequestsError "connection refused") eq_refl).
  reflexivity.
Defined.

(** ** C9: the count of a listing *)



(** ** The fallback dict *)

Lemma key_eqb_eq (a b : Database.pykey) :
  Database.key_eqb a b = true <-> a = b.
Proof.
  destruct a, b; simpl; split; intros H;
    try discriminate; try reflexivity.
  - apply Z.eqb_eq in H. now subst.
  - injection H as ->. apply Z.eqb_refl.
  - apply String.eqb_eq in H. now subst.
  - injection H as ->. apply String.eqb_refl.
Qed.

Lemma key_eqb_refl (k : Database.pykey) : Database.key_eqb k k = true.
Proof. now apply key_eqb_eq. Qed.


Lemma dict_get_set_same k v d :
  Database.dict_get k (Database.dict_set k v d) = Some v.
Proof.
  induction d as [|[k' v'] d IH]; simpl.
  - now rewrite key_eqb_refl.
  - destruct (Database.key_eqb k k') eqn:E; simpl; rewrite E; auto.
Qed.


Lemma dict_get_del_same k d :
  Database.dict_get k (Database.dict_del k d) = None.
Proof.
  induction d as [|[k' v'] d IH]; simpl; [reflexivity|].
  destruct (Database.key_eqb k k') eqn:E; simpl; [assumption|].
  now rewrite E.
Qed.





(** ** What every state of the fallback store satisfies *)






Lemma create_fallback_valid L st fields w :
  Database.redis_client st = None ->
  opt_is is_jint (obj_get "id" fields) = true ->
  obj_get "name" fields <> None ->
  exists z,
    obj_get_default "id" fields (JInt (Database.memory_counter st)) = JInt z /\
    Database.create_user L st (JObj fields) w =
    Some ({| Database.redis_client := None;
             Database.memory_users :=
               Database.dict_set (Database.KInt z)
                 (JObj (Database.new_user st fields w))
                 (Database.memory_users st);
             Database.memory_counter :=
               Z.max (Database.memory_counter st) z + 1 |},
          Response 201
            (Database.created_body st (Database.new_user st fields w))).
Proof.
  intros Hmode Hid Hname.
  assert (Ht : truthy (JObj fields) = true).
  { destruct fields; [now destruct Hname|reflexivity]. }
  assert (Hz : exists z, obj_get_default "id" fields
                           (JInt (Database.memory_counter st)) = JInt z).
  { unfold obj_get_default.
    destruct (obj_get "id" fields) as [[| | z | | | |]|];
      try discriminate Hid; eauto. }
  destruct Hz as [z Hz]. exists z. split; [exact Hz|].
  unfold Database.create_user. rewrite Ht. cbn [negb py_in].
  destruct (obj_get "name" fields); [|now destruct Hname].
  now rewrite Hmode, Hz.
Qed.

(** The only create requests outside the model are those that, in
    Fallback mode, carry a float [id]. *)
Lemma create_user_outside_model_iff L st data w :
  Database.create_user L st data w = None <->
  Database.redis_client st = None /\
  exists fields f,
    data = JObj fields /\ obj_get "name" fields <> None /\
    obj_get "id" fields = Some (JFloat f).
Proof.
  unfold Database.create_user. split.
  - destruct (negb (truthy data)); [discriminate|].
    destruct data as [| b | z | f | s | l | fields]; cbn [py_in];
      try discriminate;
      try (match goal with |- context [if ?c then _ else _] => destruct c end;
           discriminate).
    destruct (obj_get "name" fields) as [nm|] eqn:Hn; [|discriminate].
    destruct (Database.redis_client st) as [s|].
    + destruct (Database.run_redis _ _ _). discriminate.
    + unfold obj_get_default.
      destruct (obj_get "id" fields) as [[| b | z | f | s | l | kv]|] eqn:Hid;
        cbn [Database.hash_key Database.next_counter]; try discriminate.
      intros _. split; [reflexivity|]. exists fields, f.
      split; [reflexivity|]. split; [rewrite Hn; discriminate|exact Hid].
  - intros [Hmode [fields [f [-> [Hn Hid]]]]].
    assert (Ht : truthy (JObj fields) = true).
    { destruct fields; [now destruct Hn|reflexivity]. }
    rewrite Ht. cbn [negb py_in].
    destruct (obj_get "name" fields); [|now destruct Hn].
    rewrite Hmode. unfold obj_get_default. rewrite Hid. reflexivity.
Qed.

(** ** C5: the counter stays above every id ever inserted *)



(** ** C6: ids of created records *)




(** ** The Redis store *)

Lemma store_get_put_same k e s :
  Database.store_get k (Database.store_put k e s) = Some e.
Proof.
  induction s as [|[k' e'] s IH]; simpl.
  - now rewrite String.eqb_refl.
  - destruct (String.eqb_spec k k'); simpl.
    + now rewrite String.eqb_refl.
    + destruct (String.eqb_spec k k'); [contradiction|assumption].
Qed.

Lemma store_get_del_same k s :
  Database.store_get k (Database.store_del k s) = None.
Proof.
  induction s as [|[k' e'] s IH]; simpl; [reflexivity|].
  destruct (String.eqb_spec k k'); simpl; [assumption|].
  destruct (String.eqb_spec k k'); [contradiction|assumption].
Qed.

(** A command sent while the link is calm is run by the server. *)
Lemma command_calm {A} L (body : Database.rstore -> pyresult A * Database.rstore)
  s fs :
  forallb negb fs = true ->
  Database.command L body {| Database.store := s; Database.faults := fs |} =
  (fst (body s),
   {| Database.store := snd (body s); Database.faults := tl fs |}) /\
  forallb negb (tl fs) = true.
Proof.
  intros H. unfold Database.command. simpl.
  destruct fs as [|[|] fs]; simpl in *; try discriminate;
    destruct (body s); auto.
Qed.

Lemma with_store_same st s :
  Database.redis_client st = Some s -> Database.with_store st s = st.
Proof. destruct st. simpl. now intros ->. Qed.

(** A delete answered with 200 in External mode removed the key. *)
Lemma delete_external_success L st s user_id w :
  Database.redis_client st = Some s ->
  http_status (snd (Database.delete_user L st user_id w)) = 200 ->
  fst (Database.delete_user L st user_id w) =
  Database.with_store st
    (Database.store_del (Database.user_key_of user_id) s).
Proof.
  intros Hmode. unfold Database.delete_user. rewrite Hmode.
  unfold Database.run_redis, Database.bind, Database.exists_key,
    Database.delete_key, Database.command, Database.ret.
  cbn [Database.store Database.faults].
  destruct (Database.link_faults w) as [|[|] [|[|] fs]];
    destruct (Database.store_get (Database.user_key_of user_id) s);
    cbn [fst snd http_status tl Database.store Database.faults];
    intros H; try discriminate H; reflexivity.
Qed.

(** Reading a key that is not there: 404, or 500 when the link fails. *)
Lemma get_external_absent L st s user_id w :
  Database.redis_client st = Some s ->
  Database.store_get (Database.user_key_of user_id) s = None ->
  (snd (Database.get_user L st user_id w) = Database.not_found \/
   snd (Database.get_user L st user_id w) =
   Response 500 (Database.error_body "Failed to fetch user")) /\
  (calm w = true ->
   snd (Database.get_user L st user_id w) = Database.not_found).
Proof.
  intros Hmode Habs. unfold Database.get_user, calm. rewrite Hmode.
  unfold Database.run_redis, Database.hgetall, Database.command.
  cbn [Database.store Database.faults]. rewrite Habs.
  destruct (Database.link_faults w) as [|[|] fs]; cbn; split; auto;
    intros H; discriminate H.
Qed.

(** ** C7: delete, then get *)

(** C7, as stated, fails: in External mode, when the link to Redis fails
    during the [get] that follows a successful [delete], the answer is the
    500 of the [except] branch and not a 404. *)
Lemma C7_get_after_delete_can_be_500 :
  Database.delete_user Sample.lib Sample.external_ada 1 Sample.db_world =
  (Database.initial_external [],
   Response 200 (JObj [("message", JStr "User 1 deleted");
                       ("storage", JStr "redis")])) /\
  Database.get_user Sample.lib (Database.initial_external []) 1
    Sample.db_outage =
  (Database.initial_external [],
   Response 500 (JObj [("error", JStr "Failed to fetch user")])) /\
  http_status
    (snd (Database.get_user Sample.lib (Database.initial_external []) 1
            Sample.db_outage)) <> 404.
Proof.
  split; [reflexivity|]. split; [reflexivity|]. vm_compute. discriminate.
Qed.

(** C7, amended: after a [delete(id)] answered with 200, [get(id)] never
    finds the record: it fails with 404, always so in Fallback mode and in
    External mode whenever the link to Redis does not fail during the
    [get] (when it does, the answer is the 500 of the storage failure); and
    [delete(id)] fails with 404 and leaves the store as it was when no
    record has that id (in External mode, when the link does not fail). *)
Theorem C7_delete_then_get (L : pylib) (st : Database.state) (user_id : Z)
  (w w' : Database.world) :
  (http_status (snd (Database.delete_user L st user_id w)) = 200 ->
   let st1 := fst (Database.delete_user L st user_id w) in
   (snd (Database.get_user L st1 user_id w') = Database.not_found \/
    snd (Database.get_user L st1 user_id w') =
    Response 500 (Database.error_body "Failed to fetch user")) /\
   (Database.redis_client st = None \/ calm w' = true ->
    snd (Database.get_user L st1 user_id w') = Database.not_found)) /\
  (Database.redis_client st = None ->
   Database.dict_get (Database.KInt user_id) (Database.memory_users st) = None ->
   Database.delete_user L st user_id w = (st, Database.not_found)) /\
  (forall s,
      Database.redis_client st = Some s ->
      Database.store_get (Database.user_key_of user_id) s = None ->
      calm w = true ->
      Database.delete_user L st user_id w = (st, Database.not_found)).
Proof.
  split; [|split].
  - intros Hok st1.
    destruct (Database.redis_client st) as [s|] eqn:Hmode.
    + assert (E : st1 = Database.with_store st
                          (Database.store_del (Database.user_key_of user_id) s))
        by (apply delete_external_success; assumption).
      destruct (get_external_absent L st1 _ user_id w'
                  ltac:(rewrite E; reflexivity)
                  (store_get_del_same _ s)) as [A B].
      split; [exact A|]. intros [H|H]; [discriminate H|auto].
    + assert (G : snd (Database.get_user L st1 user_id w')
                  = Database.not_found).
      { subst st1. unfold Database.delete_user. rewrite Hmode.
        destruct (Database.dict_get _ _) as [u|] eqn:Hget;
          unfold Database.get_user; cbn [fst Database.redis_client
                                           Database.memory_users].
        - now rewrite dict_get_del_same.
        - now rewrite Hmode, Hget. }
      split; [now left|]. intros _. exact G.
  - intros Hmode Habs. unfold Database.delete_user.
    now rewrite Hmode, Habs.
  - intros s Hmode Habs Hcalm. unfold Database.delete_user, calm in *.
    rewrite Hmode.
    unfold Database.run_redis, Database.bind, Database.exists_key.
    destruct (command_calm L
                (fun s0 => (Ok match Database.store_get
                                       (Database.user_key_of user_id) s0 with
                               | Some _ => true
                               | None => false
                               end, s0)) s _ Hcalm) as [-> _].
    cbn [fst snd]. rewrite Habs. cbn.
    now rewrite with_store_same.
Qed.

Lemma C7_delete_then_get_witness :
  http_status
    (snd (Database.delete_user Sample.lib Sample.external_ada 1
            Sample.db_world)) = 200 /\
  calm Sample.db_world = true /\
  snd (Database.get_user Sample.lib
         (fst (Database.delete_user Sample.lib Sample.external_ada 1
                 Sample.db_world)) 1 Sample.db_world)
  = Database.not_found /\
  Database.delete_user Sample.lib Sample.state_ada 7 Sample.db_world
  = (Sample.state_ada, Database.not_found).
Proof.
  destruct (C7_delete_then_get Sample.lib Sample.external_ada 1
              Sample.db_world Sample.db_world) as [Hget _].
  destruct (C7_delete_then_get Sample.lib Sample.state_ada 7
              Sample.db_world Sample.db_world) as [_ [Habsent _]].
  split; [reflexivity|]. split; [reflexivity|]. split.
  - apply (Hget eq_refl). right. reflexivity.
  - apply Habsent; reflexivity.
Defined.

(** ** C8: the transaction that is rolled back *)

(** Had the queued transaction been executed, both keys would be stored:
    the pipeline of the model does write. *)
Lemma queued_transaction_would_write L s p :
  Database.pipe_multi L Database.pipeline_new = Ok p ->
  let queued := Database.pipe_set "tx_key2" "value2"
                  (Database.pipe_set "tx_key1" "value1" p) in
  let k := snd (Database.pipe_execute L queued
                  {| Database.store := s; Database.faults := [] |}) in
  Database.store_get "tx_key2" (Database.store k) =
  Some {| Database.rval := Database.RString "value2";
          Database.rttl := None |}.
Proof.
  intros [= <-]. cbn. apply store_get_put_same.
Qed.

(** C8: in External mode the [transaction_rollback] scenario raises the
    rollback fault and leaves the Redis store exactly as it was, whatever
    the link does: the two writes are queued in the pipeline, which is
    reset before anything is sent, so neither [tx_key1] nor [tx_key2] is
    stored by it. *)
Theorem C8_transaction_rollback_writes_nothing (L : pylib)
  (st : Database.state) (s : Database.rstore) (w : Database.world) :
  Database.redis_client st = Some s ->
  Database.trigger_database_error L st w "transaction_rollback" =
  (st, Raised (Exn RuntimeError
                 "Transaction rolled back due to error: Transaction failed at step 2"))
  /\
  (let '(_, pipe, k) :=
     Database.rollback_scenario L
       {| Database.store := s; Database.faults := Database.link_faults w |} in
   Database.command_stack pipe = [] /\ Database.store k = s) /\
  (forall key,
      Database.store_get key s = None ->
      forall s',
        Database.redis_client
          (fst (Database.trigger_database_error L st w "transaction_rollback"))
        = Some s' ->
        Database.store_get key s' = None).
Proof.
  intros Hmode.
  assert (E : Database.trigger_database_error L st w "transaction_rollback" =
              (st, Raised (Exn RuntimeError
                 "Transaction rolled back due to error: Transaction failed at step 2"))).
  { unfold Database.trigger_database_error. cbn [String.eqb Ascii.eqb Bool.eqb].
    rewrite Hmode. cbn. now rewrite with_store_same. }
  split; [exact E|]. split.
  - cbn. split; reflexivity.
  - intros key Hkey s'. rewrite E. cbn [fst]. rewrite Hmode.
    now intros [= <-].
Qed.

Lemma C8_transaction_rollback_writes_nothing_witness :
  Database.redis_client Sample.external_ada <> None /\
  Database.trigger_database_error Sample.lib Sample.external_ada
    Sample.db_world "transaction_rollback" =
  (Sample.external_ada,
   Raised (Exn RuntimeError
             "Transaction rolled back due to error: Transaction failed at step 2")).
Proof.
  split; [discriminate|].
  exact (proj1 (C8_transaction_rollback_writes_nothing Sample.lib
                  Sample.external_ada _ Sample.db_world eq_refl)).
Defined.

(** ** C10: the 500 branch in Fallback mode *)




(** ** Creating a record in External mode *)










(** ** C2: validation of a create request *)




(** ** C3: create, then get *)





(** * Further properties of the upstream service *)

Lemma api_find_fresh (l : list Api.user) (z : Z) :
  (forall u, In u l -> Api.id u <> z) ->
  find (fun u => Api.id u =? z) l = None.
Proof.
  induction l as [|v l IH]; simpl; [reflexivity|]. intros H.
  destruct (Z.eqb_spec (Api.id v) z) as [E|_].
  - exfalso. apply (H v); auto.
  - apply IH. intros u Hu. apply H. auto.
Qed.

Lemma api_find_app (f : Api.user -> bool) l u :
  find f l = None -> find f (l ++ [u]) = if f u then Some u else None.
Proof.
  induction l as [|v l IH]; simpl; [reflexivity|].
  destruct (f v); [discriminate|assumption].
Qed.

Lemma api_create_dict L st fields nm w :
  obj_get "name" fields = Some nm ->
  Api.create_user L st (JObj fields) w =
  (let u := {| Api.id := Api.user_counter st; Api.name := nm;
               Api.email := obj_get_default "email" fields (JStr "");
               Api.created_at := Api.now w |} in
   ({| Api.users := (Api.users st ++ [u])%list;
       Api.user_counter := Api.user_counter st + 1 |},
    Response 201 (Api.to_json u))).
Proof.
  intros Hn. unfold Api.create_user.
  assert (Ht : truthy (JObj fields) = true).
  { destruct fields; [discriminate Hn|reflexivity]. }
  rewrite Ht. cbn [negb py_in Api.subscript_name Api.get_email].
  now rewrite Hn.
Qed.

(** A create either leaves the state alone or appends one user whose id is
    the counter, which it then increments. *)
Lemma api_create_cases L st data w :
  fst (Api.create_user L st data w) = st \/
  exists u,
    Api.id u = Api.user_counter st /\
    fst (Api.create_user L st data w) =
    {| Api.users := (Api.users st ++ [u])%list;
       Api.user_counter := Api.user_counter st + 1 |}.
Proof.
  unfold Api.create_user.
  destruct (negb (truthy data)); [now left|].
  destruct (py_in L "name" data) as [[|]|e]; try now left.
  destruct (Api.subscript_name L data) as [nm|e]; [|now left].
  destruct (Api.get_email L data) as [em|e]; [|now left].
  right. eexists. split; [|reflexivity]. reflexivity.
Qed.

Lemma api_delete_cases st user_id w :
  fst (Api.delete_user st user_id w) = st \/
  fst (Api.delete_user st user_id w) =
  {| Api.users := filter (fun u => negb (Api.id u =? user_id)) (Api.users st);
     Api.user_counter := Api.user_counter st |}.
Proof.
  unfold Api.delete_user. destruct (Api.find_user st user_id); auto.
Qed.

(** Dropping entries keeps the keys distinct. *)
Lemma distinct_keys_after_filter {V K : Type} (key : V -> K)
  (keep : V -> bool) :
  forall items : list V,
    NoDup (map key items) -> NoDup (map key (filter keep items)).
Proof.
  induction items as [|item items IH]; intros Hd; [exact Hd|].
  cbn [map filter] in *. apply NoDup_cons_iff in Hd.
  destruct Hd as [Hfresh Hrest].
  destruct (keep item); [|now apply IH].
  cbn [map]. apply NoDup_cons_iff. split; [|now apply IH].
  intros Hin. apply Hfresh. apply in_map_iff in Hin.
  destruct Hin as [other [Hk Hother]]. apply filter_In in Hother.
  apply in_map_iff. exists other. tauto.
Qed.

Lemma api_handle_inv L st rq :
  api_inv st ->
  api_inv (fst (Api.handle L st rq)) /\
  Api.user_counter st <= Api.user_counter (fst (Api.handle L st rq)).
Proof.
  intros Hinv. pose proof Hinv as [Hnd [Hpos Hlt]].
  destruct rq as [[| data | user_id | user_id] w]; cbn [Api.handle fst].
  - split; [exact Hinv|lia].
  - destruct (api_create_cases L st data w) as [->|[u [Hid ->]]].
    + split; [exact Hinv|lia].
    + split; [|simpl; lia].
      split; [|split]; cbn [Api.users Api.user_counter].
      * rewrite map_app. simpl.
        apply NoDup_app; [assumption|repeat constructor; auto|].
        intros x Hx [E|[]]. apply in_map_iff in Hx.
        destruct Hx as [v [Ev Hv]]. specialize (Hlt v Hv). lia.
      * lia.
      * intros v Hv. apply in_app_iff in Hv. destruct Hv as [Hv|[<-|[]]].
        -- specialize (Hlt v Hv). lia.
        -- lia.
  - split; [exact Hinv|lia].
  - destruct (api_delete_cases st user_id w) as [->| ->].
    + split; [exact Hinv|lia].
    + split; [|simpl; lia].
      split; [|split]; cbn [Api.users Api.user_counter].
      * now apply distinct_keys_after_filter.
      * assumption.
      * intros v Hv. apply filter_In in Hv. now apply Hlt.
Qed.

Lemma api_serve_inv L rqs : forall st,
  api_inv st ->
  api_inv (Api.serve L st rqs) /\
  Api.user_counter st <= Api.user_counter (Api.serve L st rqs).
Proof.
  unfold Api.serve.
  induction rqs as [|rq rqs IH]; simpl; intros st Hinv.
  - split; [assumption|lia].
  - destruct (api_handle_inv L st rq Hinv) as [H1 Hle1].
    destruct (IH _ H1) as [H2 Hle2]. split; [assumption|lia].
Qed.

Lemma api_inv_initial : api_inv Api.initial.
Proof. split; [constructor|]. split; [simpl; lia|]. intros u []. Qed.

(** X1: in every state the upstream service reaches, creating a user from
    a dict body with a [name] answers 201 with a record whose id no stored
    user has, and a [get] of that id right after answers 200 with the very
    same record. *)
Theorem X1_upstream_create_then_get (L : pylib)
  (rqs : list (Api.request * Api.world)) (fields : list (string * json))
  (nm : json) (w : Api.world) :
  obj_get "name" fields = Some nm ->
  let st := Api.serve L Api.initial rqs in
  exists st' u,
    Api.create_user L st (JObj fields) w = (st', Response 201 (Api.to_json u))
    /\ Api.name u = nm
    /\ Api.email u = obj_get_default "email" fields (JStr "")
    /\ (forall v, In v (Api.users st) -> Api.id v <> Api.id u)
    /\ Api.get_user st' (Api.id u) = Response 200 (Api.to_json u).
Proof.
  intros Hn st.
  destruct (api_serve_inv L rqs _ api_inv_initial) as [[_ [_ Hlt]] _].
  fold st in Hlt. rewrite (api_create_dict L st fields nm w Hn). cbv zeta.
  do 2 eexists. split; [reflexivity|]. split; [reflexivity|].
  split; [reflexivity|]. cbn [Api.id].
  assert (Hfresh : forall v, In v (Api.users st) ->
                             Api.id v <> Api.user_counter st).
  { intros v Hv. specialize (Hlt v Hv). lia. }
  split; [exact Hfresh|].
  unfold Api.get_user, Api.find_user. cbn [Api.users].
  rewrite api_find_app by (apply api_find_fresh; exact Hfresh).
  cbn [Api.id]. now rewrite Z.eqb_refl.
Qed.

Lemma X1_upstream_create_then_get_witness :
  obj_get "name" [("name", JStr "Ada")] = Some (JStr "Ada") /\
  exists st' u,
    Api.create_user Sample.lib Api.initial Sample.ada
      (Sample.api_world Sample.unreachable) =
    (st', Response 201 (Api.to_json u)) /\
    Api.get_user st' (Api.id u) = Response 200 (Api.to_json u).
Proof.
  split; [reflexivity|].
  pose proof (X1_upstream_create_then_get Sample.lib [] [("name", JStr "Ada")]
                (JStr "Ada") (Sample.api_world Sample.unreachable) eq_refl)
    as H.
  cbv zeta in H. destruct H as [st' [u [Hc [_ [_ [_ Hg]]]]]].
  exists st', u. split; [exact Hc|exact Hg].
Defined.

(** X2: the upstream ids are never reused: at any point of any sequence
    of requests the stored users have pairwise distinct ids, and every id
    that was in the list at an earlier point, deleted since or not, is
    at least 1 and below the counter from which the next id is taken. *)
Theorem X2_upstream_ids_never_reused (L : pylib)
  (rqs1 rqs2 : list (Api.request * Api.world)) :
  let st1 := Api.serve L Api.initial rqs1 in
  let st2 := Api.serve L st1 rqs2 in
  NoDup (map Api.id (Api.users st2)) /\
  forall u, In u (Api.users st1) -> 1 <= Api.id u < Api.user_counter st2.
Proof.
  intros st1 st2.
  destruct (api_serve_inv L rqs1 _ api_inv_initial) as [H1 _]. fold st1 in H1.
  destruct (api_serve_inv L rqs2 _ H1) as [[Hnd _] Hle]. fold st2 in Hnd, Hle.
  split; [exact Hnd|]. intros u Hu.
  destruct H1 as [_ [_ Hlt]]. specialize (Hlt u Hu). lia.
Qed.

Lemma X2_upstream_ids_never_reused_witness :
  In {| Api.id := 1; Api.name := JStr "Ada"; Api.email := JStr "";
        Api.created_at := Sample.noon |}
     (Api.users (Api.serve Sample.lib Api.initial
                   [(Api.CreateUser Sample.ada,
                     Sample.api_world Sample.unreachable)])) /\
  1 < Api.user_counter
        (Api.serve Sample.lib
           (Api.serve Sample.lib Api.initial
              [(Api.CreateUser Sample.ada,
                Sample.api_world Sample.unreachable)])
           [(Api.DeleteUser 1, Sample.api_world Sample.unreachable)]).
Proof.
  assert (Hin : In {| Api.id := 1; Api.name := JStr "Ada";
                      Api.email := JStr "";
                      Api.created_at := Sample.noon |}
                   (Api.users (Api.serve Sample.lib Api.initial
                                 [(Api.CreateUser Sample.ada,
                                   Sample.api_world Sample.unreachable)])))
    by (left; reflexivity).
  split; [exact Hin|].
  exact (proj2 (proj2 (X2_upstream_ids_never_reused Sample.lib
                         [(Api.CreateUser Sample.ada,
                           Sample.api_world Sample.unreachable)]
                         [(Api.DeleteUser 1,
                           Sample.api_world Sample.unreachable)]) _ Hin)).
Defined.





(** * Bodies that are not JSON objects *)

(** X4: a create whose body is not a JSON object never stores anything, on
    either service: the upstream one answers 400 or lets a [TypeError]
    escape; the downstream one answers 400, lets a [TypeError] escape, or
    answers 500.  In particular a JSON string that contains [name] passes
    the guard of both and then fails. *)
Theorem X4_non_object_body_stores_nothing (L : pylib) (data : json) :
  (forall fields, data <> JObj fields) ->
  (forall st w,
      fst (Api.create_user L st data w) = st /\
      (snd (Api.create_user L st data w) =
       Response 400 (JObj [("error", JStr "Name is required")]) \/
       snd (Api.create_user L st data w) =
       Raised (Exn TypeError (lib_text L TypeError)))) /\
  (forall st w,
      exists o,
        Database.create_user L st data w = Some (st, o) /\
        (o = Response 400 (JObj [("error", JStr "Name is required")]) \/
         o = Raised (Exn TypeError (lib_text L TypeError)) \/
         o = Response 500 (JObj [("error", JStr "Failed to create user")])))
  /\
  (forall s, data = JStr s -> str_contains "name" s = true ->
     (forall st w,
         Api.create_user L st data w =
         (st, Raised (Exn TypeError (lib_text L TypeError)))) /\
     (forall st w,
         Database.create_user L st data w =
         Some (st, Response 500
                     (JObj [("error", JStr "Failed to create user")])))).
Proof.
  intros Hno. split; [|split].
  - intros st w. unfold Api.create_user.
    destruct (negb (truthy data)); [split; [reflexivity|now left]|].
    destruct data as [| b | z | f | s | l | fields]; cbn [py_in];
      try (split; [reflexivity|now right]).
    + destruct (str_contains "name" s); cbn; split; auto.
    + destruct (existsb (is_str "name") l); cbn; split; auto.
    + now destruct (Hno fields).
  - intros st w. unfold Database.create_user.
    destruct (negb (truthy data)); [eexists; split; [reflexivity|now left]|].
    destruct data as [| b | z | f | s | l | fields]; cbn [py_in];
      try (eexists; split; [reflexivity|now (right; left)]).
    + destruct (str_contains "name" s); eexists; (split; [reflexivity|]);
        auto.
    + destruct (existsb (is_str "name") l); eexists;
        (split; [reflexivity|]); auto.
    + now destruct (Hno fields).
  - intros s -> Hs.
    assert (Ht : truthy (JStr s) = true).
    { destruct s; [discriminate Hs|reflexivity]. }
    split; intros st w; unfold Api.create_user, Database.create_user;
      rewrite Ht; cbn [negb py_in]; rewrite Hs; reflexivity.
Qed.

Lemma X4_non_object_body_stores_nothing_witness :
  Api.create_user Sample.lib Api.initial (JStr "my name")
    (Sample.api_world Sample.unreachable) =
  (Api.initial, Raised (Exn TypeError "")) /\
  Database.create_user Sample.lib Database.initial_fallback (JStr "my name")
    Sample.db_world =
  Some (Database.initial_fallback,
        Response 500 (JObj [("error", JStr "Failed to create user")])).
Proof.
  assert (H : forall fields, JStr "my name" <> JObj fields)
    by (intros fields; discriminate).
  destruct (X4_non_object_body_stores_nothing Sample.lib (JStr "my name") H)
    as [_ [_ S]].
  destruct (S "my name" eq_refl eq_refl) as [A D].
  split; [apply A|apply D].
Defined.

(** * Further properties of the fault catalogs *)

(** Walks the [if]/[elif] chain of a dispatcher in hypothesis [H]. *)
Ltac walk_chain_in H name :=
  repeat match type of H with
         | context [String.eqb name ?x] =>
             destruct (String.eqb_spec name x) as [?E|?E]; cbv iota in H
         end.

(** X5: a scenario of the upstream catalog answers instead of raising in
    three cases only: [infinite_loop] when the handler runs in the main
    thread and the loop ends before the alarm, [memory_error] when the
    allocation succeeds, and [network_timeout] when the remote site
    answers with a JSON body in time; the answer is then a 200.  Every
    other name, known or not, raises whatever the outside world does. *)
Theorem X5_upstream_scenarios_that_answer (L : pylib) (w : Api.world)
  (name : string) :
  ((exists s b, Api.trigger_specific_error L w name = Response s b) <->
   (name = "infinite_loop" /\
    Api.in_main_thread w = true /\ Api.alarm_fires w = false) \/
   (name = "memory_error" /\ Api.alloc_fails w = false) \/
   (name = "network_timeout" /\
    exists st j, Api.httpbin w = Api.ReqAnswers st (Some j))) /\
  (forall s b, Api.trigger_specific_error L w name = Response s b -> s = 200).
Proof.
  assert (F : forall s b,
             Api.trigger_specific_error L w name = Response s b ->
             s = 200 /\
             ((name = "infinite_loop" /\
               Api.in_main_thread w = true /\ Api.alarm_fires w = false) \/
              (name = "memory_error" /\ Api.alloc_fails w = false) \/
              (name = "network_timeout" /\
               exists st j, Api.httpbin w = Api.ReqAnswers st (Some j)))).
  { intros s b H. unfold Api.trigger_specific_error, Api.lib_raise in H.
    walk_chain_in H name; try discriminate H.
    - destruct (Api.in_main_thread w); [|discriminate H].
      destruct (Api.alarm_fires w); [discriminate H|].
      injection H as <- _. split; [reflexivity|]. left. auto.
    - destruct (Api.alloc_fails w); [discriminate H|].
      injection H as <- _. split; [reflexivity|]. right. left. auto.
    - destruct (Api.httpbin w) as [[c m]|st [j|]]; try discriminate H.
      + destruct c; discriminate H.
      + injection H as <- _. split; [reflexivity|]. right. right. eauto. }
  split; [split|].
  - intros [s [b H]]. exact (proj2 (F s b H)).
  - intros [[-> [Hm Ha]]|[[-> Hm]|[-> [st [j Hh]]]]];
      unfold Api.trigger_specific_error; cbn [String.eqb Ascii.eqb Bool.eqb].
    + rewrite Hm, Ha. cbn. eauto.
    + rewrite Hm. eauto.
    + rewrite Hh. eauto.
  - intros s b H. exact (proj1 (F s b H)).
Qed.

Lemma database_trigger_fallback (L : pylib) (st : Database.state)
  (w : Database.world) (name : string) :
  Database.redis_client st = None ->
  exists e, Database.trigger_database_error L st w name = (st, Raised e).
Proof.
  intros Hmode. unfold Database.trigger_database_error, Database.lib_raise.
  cbv zeta.
  repeat match goal with
         | |- context [String.eqb name ?x] =>
             destruct (String.eqb_spec name x) as [?E|?E];
             [rewrite ?Hmode; eexists; reflexivity|]
         end.
  eexists; reflexivity.
Qed.

(** X6: in Fallback mode no scenario of the downstream catalog answers:
    whatever the name, known or not, the trigger raises an exception, so
    the client is answered with 500, and the state is left as it was. *)
Theorem X6_fallback_scenarios_all_raise (L : pylib) (st : Database.state)
  (w : Database.world) (name : string) :
  Database.redis_client st = None ->
  exists e,
    Database.trigger_database_error L st w name = (st, Raised e) /\
    http_status (snd (Database.trigger_database_error L st w name)) = 500.
Proof.
  intros Hmode.
  destruct (database_trigger_fallback L st w name Hmode) as [e E].
  exists e. rewrite E. split; reflexivity.
Qed.

Lemma X6_fallback_scenarios_all_raise_witness :
  Database.redis_client Sample.state_ada = None /\
  exists e,
    Database.trigger_database_error Sample.lib Sample.state_ada
      Sample.db_world "key_not_found" = (Sample.state_ada, Raised e).
Proof.
  split; [reflexivity|].
  destruct (X6_fallback_scenarios_all_raise Sample.lib Sample.state_ada
              Sample.db_world "key_not_found" eq_refl) as [e [E _]].
  exists e. exact E.
Defined.

Lemma X5_upstream_scenarios_that_answer_witness :
  Api.trigger_specific_error Sample.lib (Sample.api_world Sample.unreachable)
    "infinite_loop" =
  Response 200 (JObj [("error", JStr "Infinite loop detected and stopped")])
  /\ 200 = 200.
Proof.
  split; [reflexivity|].
  exact (proj2 (X5_upstream_scenarios_that_answer Sample.lib
                  (Sample.api_world Sample.unreachable) "infinite_loop")
           200 _ eq_refl).
Defined.

Lemma store_get_put_other k k' e s :
  k <> k' ->
  Database.store_get k' (Database.store_put k e s) = Database.store_get k' s.
Proof.
  intros N. induction s as [|[k0 e0] s IH]; simpl.
  - destruct (String.eqb_spec k' k); [congruence|reflexivity].
  - destruct (String.eqb_spec k k0) as [E|N0]; simpl.
    + subst k0. destruct (String.eqb_spec k' k); [congruence|reflexivity].
    + now rewrite IH.
Qed.

Lemma store_get_del_other k k' s :
  k <> k' ->
  Database.store_get k' (Database.store_del k s) = Database.store_get k' s.
Proof.
  intros N. induction s as [|[k0 e0] s IH]; simpl; [reflexivity|].
  destruct (String.eqb_spec k k0) as [E|N0]; simpl.
  - subst k0. destruct (String.eqb_spec k' k); [congruence|assumption].
  - now rewrite IH.
Qed.

Lemma database_trigger_frame (L : pylib) (st : Database.state)
  (w : Database.world) (name : string) :
  let st' := fst (Database.trigger_database_error L st w name) in
  Database.memory_users st' = Database.memory_users st /\
  Database.memory_counter st' = Database.memory_counter st /\
  match Database.redis_client st with
  | None => Database.redis_client st' = None
  | Some s =>
      exists s',
        Database.redis_client st' = Some s' /\
        forall key,
          key <> "large_key" -> key <> "corrupted_user" ->
          Database.store_get key s' = Database.store_get key s
  end.
Proof.
  intros st'. subst st'.
  destruct (Database.redis_client st) as [s|] eqn:Hmode.
  - unfold Database.trigger_database_error, Database.lib_raise,
      Database.rollback_scenario, Database.rollback_try.
    cbv zeta.
    repeat match goal with
           | |- context [String.eqb name ?x] =>
               destruct (String.eqb_spec name x) as [?E|?E]; cbv iota
           end;
      rewrite ?Hmode;
      unfold Database.run_redis, Database.bind, Database.set_key,
        Database.get_key, Database.command, Database.throw, Database.ret;
      cbn [Database.store Database.faults];
      try (destruct (Database.debug_sleep w));
      try (destruct (Database.link_faults w) as [|[|] [|[|] ?]]);
      cbn [Database.store Database.faults tl fst snd];
      rewrite ?store_get_put_same;
      try (destruct (Database.store_get "critical_config_key" s)
             as [[[?|?] ?]|]);
      cbn [Database.rval fst snd Database.store Database.with_store
             Database.memory_users Database.memory_counter
             Database.redis_client Database.pipe_multi
             Database.pipeline_new Database.explicit_transaction
             Database.command_stack];
      (split; [reflexivity|]); (split; [reflexivity|]);
      try (exists s; split; [assumption|reflexivity]);
      eexists; (split; [reflexivity|]); intros key H1 H2;
      rewrite ?store_get_put_other by congruence; reflexivity.
  - destruct (database_trigger_fallback L st w name Hmode) as [e ->].
    cbn [fst]. rewrite Hmode. repeat split.
Qed.

(** X7: triggering a fault never touches the user records.  Whatever the
    name and whatever the link does, the in-memory map and the counter are
    as before, the mode is as before, and in External mode every Redis key
    other than [large_key] and [corrupted_user] (so every [user:] key)
    holds what it held. *)
Theorem X7_scenarios_leave_the_users_alone (L : pylib) (st : Database.state)
  (w : Database.world) (name : string) :
  let st' := fst (Database.trigger_database_error L st w name) in
  Database.memory_users st' = Database.memory_users st /\
  Database.memory_counter st' = Database.memory_counter st /\
  match Database.redis_client st with
  | None => Database.redis_client st' = None
  | Some s =>
      exists s',
        Database.redis_client st' = Some s' /\
        (forall key,
            key <> "large_key" -> key <> "corrupted_user" ->
            Database.store_get key s' = Database.store_get key s) /\
        (forall key,
            prefix "user:" key = true ->
            Database.store_get key s' = Database.store_get key s)
  end.
Proof.
  intros st'.
  destruct (database_trigger_frame L st w name) as [G1 [G2 G3]].
  fold st' in G1, G2, G3.
  split; [exact G1|]. split; [exact G2|].
  destruct (Database.redis_client st) as [s|]; [|exact G3].
  destruct G3 as [s' [E H]]. exists s'. split; [exact E|]. split; [exact H|].
  intros key Hp. apply H; intros ->; discriminate Hp.
Qed.

Lemma X7_scenarios_leave_the_users_alone_witness :
  exists s',
    Database.redis_client
      (fst (Database.trigger_database_error Sample.lib Sample.external_ada
              Sample.db_world "data_corruption")) = Some s' /\
    Database.store_get "corrupted_user" s' <> None /\
    Database.store_get "user:1" s' =
    Database.store_get "user:1"
      [("user:1",
        {| Database.rval :=
             Database.RHash [("id", "1"); ("name", "Ada"); ("email", "");
                             ("created_at", "4744202124835160064")];
           Database.rttl := Some 3600 |})].
Proof.
  pose proof (X7_scenarios_leave_the_users_alone Sample.lib
                Sample.external_ada Sample.db_world "data_corruption") as H.
  cbv zeta in H. destruct H as [_ [_ [s' [E [_ Hu]]]]].
  exists s'. split; [exact E|]. split.
  - vm_compute in E. injection E as <-. discriminate.
  - apply Hu. reflexivity.
Defined.

(** * Further properties of the fallback store *)

Lemma dict_set_absent k v d :
  Database.dict_get k d = None ->
  Database.dict_set k v d = (d ++ [(k, v)])%list.
Proof.
  induction d as [|[k' v'] d IH]; simpl; [reflexivity|].
  destruct (Database.key_eqb k k'); [discriminate|].
  intros H. now rewrite IH.
Qed.















(** * Reads are read-only, and what can escape a handler *)

Lemma command_reads {A} L (body : Database.rstore -> pyresult A * Database.rstore)
  k :
  (forall s, snd (body s) = s) ->
  Database.store (snd (Database.command L body k)) = Database.store k.
Proof.
  intros Hb. unfold Database.command.
  destruct (Database.faults k) as [|[|] fs]; cbn [snd Database.store];
    try reflexivity;
    specialize (Hb (Database.store k));
    destruct (body (Database.store k)); cbn in *; assumption.
Qed.

Lemma hgetall_reads L key k :
  Database.store (snd (Database.hgetall L key k)) = Database.store k.
Proof.
  apply command_reads. intros s.
  destruct (Database.store_get key s) as [[[v|h] ttl]|]; reflexivity.
Qed.

Lemma fetch_users_reads L keys : forall acc k,
  Database.store (snd (Database.fetch_users L keys acc k)) = Database.store k.
Proof.
  induction keys as [|key keys IH]; intros acc k; [reflexivity|].
  cbn [Database.fetch_users]. unfold Database.bind.
  pose proof (hgetall_reads L key k) as Hh.
  destruct (Database.hgetall L key k) as [[h|e] k']; cbn [snd] in *;
    [|assumption].
  destruct h as [|fv h]; [now rewrite IH|].
  destruct (Database.user_of_hash L (fv :: h)); [now rewrite IH|assumption].
Qed.

Lemma with_store_of st s k :
  Database.redis_client st = Some s ->
  Database.store k = s ->
  Database.with_store st (Database.store k) = st.
Proof. intros Hm ->. now apply with_store_same. Qed.

(** X10: the requests that read do not write.  In either mode, whatever
    the Redis store holds and whatever the link does, listing the users,
    getting one and asking for the statistics leave the state of the
    service, the Redis store included, exactly as it was. *)
Theorem X10_reads_change_nothing (L : pylib) (st : Database.state)
  (w : Database.world) :
  fst (Database.get_users L st w) = st /\
  (forall user_id, fst (Database.get_user L st user_id w) = st) /\
  (forall info1 info2, fst (Database.get_stats L st w info1 info2) = st).
Proof.
  split; [|split].
  - unfold Database.get_users.
    destruct (Database.redis_client st) as [s|] eqn:Hmode; [|reflexivity].
    unfold Database.run_redis, Database.bind.
    set (k0 := {| Database.store := s;
                  Database.faults := Database.link_faults w |}).
    pose proof (command_reads L
                  (fun s0 => (Ok (filter (prefix "user:") (map fst s0)), s0))
                  k0 (fun _ => eq_refl)) as Hk.
    fold (Database.keys_user L) in Hk.
    destruct (Database.keys_user L k0) as [[keys|e] k1]; cbn [snd] in Hk.
    + pose proof (fetch_users_reads L keys [] k1) as Hf.
      destruct (Database.fetch_users L keys [] k1) as [r k2].
      cbn [fst snd] in *.
      apply (with_store_of _ s); [assumption|]. rewrite Hf, Hk. reflexivity.
    + cbn [fst]. apply (with_store_of _ s); assumption.
  - intros user_id. unfold Database.get_user.
    destruct (Database.redis_client st) as [s|] eqn:Hmode.
    + unfold Database.run_redis.
      pose proof (hgetall_reads L (Database.user_key_of user_id)
                    {| Database.store := s;
                       Database.faults := Database.link_faults w |}) as Hh.
      destruct (Database.hgetall L _ _) as [r k1]. cbn [fst snd] in *.
      apply (with_store_of _ s); assumption.
    + destruct (Database.dict_get _ _) as [u|]; [destruct (truthy u)|];
        reflexivity.
  - intros info1 info2. unfold Database.get_stats.
    destruct (Database.redis_client st) as [s|] eqn:Hmode; [|reflexivity].
    unfold Database.run_redis, Database.bind, Database.keys_user,
      Database.info, Database.command, Database.ret.
    cbn [Database.store Database.faults].
    destruct (Database.link_faults w) as [|[|] [|[|] [|[|] ?]]];
      cbn [fst snd tl Database.store Database.faults];
      now apply with_store_same.
Qed.

(** X11: no exception escapes the listing, get, delete and statistics
    routes of the downstream service, in either mode, whatever the Redis
    store holds and whatever the link does: the listing and the statistics
    answer 200 or 500, get and delete answer 200, 404 or 500.  From a
    create only the [TypeError] of the guard can escape, and only for a
    body that is a number or [true]; otherwise it answers 201, 400 or
    500. *)
Theorem X11_what_escapes_the_user_routes (L : pylib) (st : Database.state)
  (w : Database.world) :
  status_among [200; 500] (snd (Database.get_users L st w)) /\
  (forall user_id,
      status_among [200; 404; 500] (snd (Database.get_user L st user_id w)))
  /\
  (forall user_id,
      status_among [200; 404; 500]
        (snd (Database.delete_user L st user_id w))) /\
  (forall info1 info2,
      status_among [200; 500] (snd (Database.get_stats L st w info1 info2)))
  /\
  (forall data st' o,
      Database.create_user L st data w = Some (st', o) ->
      status_among [201; 400; 500] o \/
      (o = Raised (Exn TypeError (lib_text L TypeError)) /\ st' = st /\
       match data with
       | JInt _ | JFloat _ | JBool true => True
       | _ => False
       end)).
Proof.
  split; [|split; [|split; [|split]]].
  - unfold Database.get_users.
    destruct (Database.redis_client st); [|simpl; auto].
    destruct (Database.run_redis _ _ _) as [[us|e] s']; simpl; auto.
  - intros user_id. unfold Database.get_user.
    destruct (Database.redis_client st).
    + destruct (Database.run_redis _ _ _) as [[[|fv h]|e] s'];
        cbn [snd]; [simpl; auto| |simpl; auto].
      destruct (Database.user_of_hash L (fv :: h)); simpl; auto.
    + destruct (Database.dict_get _ _) as [u|]; [destruct (truthy u)|];
        simpl; auto.
  - intros user_id. unfold Database.delete_user.
    destruct (Database.redis_client st).
    + destruct (Database.run_redis _ _ _) as [[[|]|e] s']; simpl; auto.
    + destruct (Database.dict_get _ _) as [u|]; simpl; auto.
  - intros info1 info2. unfold Database.get_stats.
    destruct (Database.redis_client st); [|simpl; auto].
    destruct (Database.run_redis _ _ _) as [[stats|e] s']; simpl; auto.
  - intros data st' o. unfold Database.create_user.
    destruct (negb (truthy data)) eqn:Ht;
      [intros [= <- <-]; left; simpl; auto|].
    destruct data as [| b | z | f | s | l | fields]; cbn [py_in];
      try discriminate Ht.
    + destruct b; [|discriminate Ht]. intros [= <- <-]. right. auto.
    + intros [= <- <-]. right. auto.
    + intros [= <- <-]. right. auto.
    + destruct (str_contains "name" s); intros [= <- <-]; left; simpl; auto.
    + destruct (existsb (is_str "name") l); intros [= <- <-]; left;
        simpl; auto.
    + destruct (obj_get "name" fields);
        [|intros [= <- <-]; left; simpl; auto].
      destruct (Database.redis_client st).
      * destruct (Database.run_redis _ _ _) as [[u|e] s'];
          intros [= <- <-]; left; simpl; auto.
      * destruct (Database.hash_key _); [|discriminate|].
        -- destruct (Database.next_counter _ _); intros [= <- <-]; left;
             simpl; auto.
        -- intros [= <- <-]. left. simpl. auto.
Qed.

Lemma X11_what_escapes_the_user_routes_witness :
  Database.create_user Sample.lib Sample.state_ada (JInt 5) Sample.db_world
  = Some (Sample.state_ada, Raised (Exn TypeError "")) /\
  (status_among [201; 400; 500] (Raised (Exn TypeError "")) \/
   Raised (Exn TypeError "") = Raised (Exn TypeError "") /\
   Sample.state_ada = Sample.state_ada /\ True).
Proof.
  split; [reflexivity|].
  exact (proj2 (proj2 (proj2 (proj2
           (X11_what_escapes_the_user_routes Sample.lib Sample.state_ada
              Sample.db_world)))) (JInt 5) _ _ eq_refl).
Defined.

(** * The mode of the downstream service *)

Lemma handle_call_mode L st c st' o :
  Database.handle_call L st c = Some (st', o) ->
  match Database.redis_client st with
  | None => Database.redis_client st' = None
  | Some _ =>
      Database.redis_client st' <> None /\
      Database.memory_users st' = Database.memory_users st /\
      Database.memory_counter st' = Database.memory_counter st
  end.
Proof.
  assert (Hw : forall s', Database.redis_client (Database.with_store st s')
                          <> None /\
                          Database.memory_users (Database.with_store st s')
                          = Database.memory_users st /\
                          Database.memory_counter (Database.with_store st s')
                          = Database.memory_counter st).
  { intros s'. repeat split. discriminate. }
  destruct c as [[[| data | user_id | user_id] | scenario | i1 i2 | ty] w];
    cbn [Database.handle_call Database.handle].
  - unfold Database.get_users.
    destruct (Database.redis_client st) as [s|] eqn:Hmode.
    + destruct (Database.run_redis _ _ _) as [r s']. intros [= <- _].
      apply Hw.
    + now intros [= <- _].
  - unfold Database.create_user.
    destruct (Database.redis_client st) as [s|] eqn:Hmode.
    + destruct (negb (truthy data));
        [intros [= <- _]; rewrite Hmode; repeat split; discriminate|].
      destruct (py_in L "name" data) as [[|]|e];
        try (intros [= <- _]; rewrite Hmode; repeat split; discriminate).
      destruct data;
        try (intros [= <- _]; rewrite Hmode; repeat split; discriminate).
      destruct (Database.run_redis _ _ _) as [r s']. intros [= <- _].
      apply Hw.
    + destruct (negb (truthy data)); [now intros [= <- _]|].
      destruct (py_in L "name" data) as [[|]|e]; try now intros [= <- _].
      destruct data; try now intros [= <- _].
      destruct (Database.hash_key _); [|discriminate|now intros [= <- _]].
      destruct (Database.next_counter _ _); now intros [= <- _].
  - unfold Database.get_user.
    destruct (Database.redis_client st) as [s|] eqn:Hmode.
    + destruct (Database.run_redis _ _ _) as [r s']. intros [= <- _].
      apply Hw.
    + destruct (Database.dict_get _ _) as [u|]; [destruct (truthy u)|];
        now intros [= <- _].
  - unfold Database.delete_user.
    destruct (Database.redis_client st) as [s|] eqn:Hmode.
    + destruct (Database.run_redis _ _ _) as [r s']. intros [= <- _].
      apply Hw.
    + destruct (Database.dict_get _ _) as [u|]; now intros [= <- _].
  - intros [= <- _]. destruct (Database.redis_client st); [|reflexivity].
    repeat split. discriminate.
  - unfold Database.get_stats.
    destruct (Database.redis_client st) as [s|] eqn:Hmode.
    + destruct (Database.run_redis _ _ _) as [r s']. intros [= <- _].
      apply Hw.
    + now intros [= <- _].
  - unfold Database.test_database_errors.
    destruct (String.eqb _ "list").
    + intros [= <- _]. destruct (Database.redis_client st); [|reflexivity].
      repeat split. discriminate.
    + intros H.
      destruct (database_trigger_frame L st w
                  match ty with Some t => t | None => "list" end)
        as [G1 [G2 G3]].
      rewrite (surjective_pairing (Database.trigger_database_error _ _ _ _))
        in H.
      injection H as <- _.
      destruct (Database.redis_client st); [|exact G3].
      destruct G3 as [s' [E _]]. rewrite E. repeat split; try assumption.
      discriminate.
Qed.

Lemma serve_calls_mode L cs : forall st st',
  Database.serve_calls L st cs = Some st' ->
  match Database.redis_client st with
  | None => Database.redis_client st' = None
  | Some _ =>
      Database.redis_client st' <> None /\
      Database.memory_users st' = Database.memory_users st /\
      Database.memory_counter st' = Database.memory_counter st
  end.
Proof.
  induction cs as [|c cs IH]; simpl; intros st st' H.
  - injection H as <-. destruct (Database.redis_client st); [|reflexivity].
    repeat split. discriminate.
  - destruct (Database.handle_call L st c) as [[st1 o]|] eqn:Hh;
      [|discriminate].
    pose proof (handle_call_mode L st c st1 o Hh) as H1.
    pose proof (IH st1 st' H) as H2.
    destruct (Database.redis_client st).
    + destruct H1 as [N1 [M1 C1]].
      destruct (Database.redis_client st1); [|now destruct N1].
      destruct H2 as [N2 [M2 C2]]. repeat split; congruence.
    + now rewrite H1 in H2.
Qed.

(** X12: the storage mode is decided once, at start-up, and no request
    changes it.  The probe gives External mode exactly when the port
    parses (or is not set) and the ping returns, and Fallback mode
    otherwise, a malformed port included; after any sequence of calls to
    the user routes, the health, statistics and fault routes, the health
    check reports the storage it reported at start-up, and in External
    mode the in-memory map is still empty and the counter still 1. *)
Theorem X12_mode_is_decided_at_startup (L : pylib)
  (redis_port : option string) (ping : option exn)
  (server : Database.rstore)
  (cs : list (Database.call * Database.world)) (st : Database.state) :
  let st0 := Database.startup L redis_port ping server in
  Database.serve_calls L st0 cs = Some st ->
  (Database.storage st0 = JStr "redis" <->
   ping = None /\
   (redis_port = None \/
    exists p z, redis_port = Some p /\ lib_int L p = Some z)) /\
  (Database.storage st0 = JStr "redis" \/
   st0 = Database.initial_fallback) /\
  (forall scenario,
      Database.health_check st scenario = Database.health_check st0 scenario)
  /\
  (Database.storage st0 = JStr "redis" ->
   Database.memory_users st = [] /\ Database.memory_counter st = 1).
Proof.
  intros st0 H.
  assert (Hs : Database.storage st = Database.storage st0 /\
               (Database.redis_client st0 <> None ->
                Database.memory_users st = Database.memory_users st0 /\
                Database.memory_counter st = Database.memory_counter st0)).
  { pose proof (serve_calls_mode L cs st0 st H) as M.
    unfold Database.storage.
    destruct (Database.redis_client st0).
    - destruct M as [N [M1 M2]].
      destruct (Database.redis_client st); [|now destruct N].
      split; [reflexivity|]. intros _. split; assumption.
    - rewrite M. split; [reflexivity|]. intros N. now destruct N. }
  destruct Hs as [Hst Hmem].
  assert (C : (st0 = Database.initial_external server /\
               ping = None /\
               (redis_port = None \/
                exists p z, redis_port = Some p /\ lib_int L p = Some z)) \/
              (st0 = Database.initial_fallback /\
               ~ (ping = None /\
                  (redis_port = None \/
                   exists p z, redis_port = Some p /\ lib_int L p = Some z)))).
  { subst st0. unfold Database.startup.
    destruct redis_port as [p|].
    - destruct (lib_int L p) as [z|] eqn:Hp.
      + destruct ping as [e|].
        * right. split; [reflexivity|]. intros [N _]. discriminate N.
        * left. split; [reflexivity|]. split; [reflexivity|]. right. eauto.
      + right. split; [reflexivity|].
        intros [_ [N|[p' [z [[= <-] N]]]]]; congruence.
    - destruct ping as [e|].
      + right. split; [reflexivity|]. intros [N _]. discriminate N.
      + left. split; [reflexivity|]. split; [reflexivity|]. now left. }
  split; [|split; [|split]].
  - destruct C as [[E [Hp Hport]]|[E Hn]]; rewrite E; cbn.
    + split; auto.
    + split; [discriminate|]. intros N. now destruct Hn.
  - destruct C as [[E _]|[E _]]; [left|right]; rewrite E; reflexivity.
  - intros scenario. unfold Database.health_check. now rewrite Hst.
  - intros Hr. destruct C as [[E _]|[E _]]; rewrite E in *.
    + apply Hmem. discriminate.
    + discriminate Hr.
Qed.

Lemma X12_mode_is_decided_at_startup_witness :
  Database.startup Sample.lib (Some "not-a-port") None [] =
  Database.initial_fallback /\
  Database.serve_calls Sample.lib Database.initial_fallback
    [(Database.Users (Database.CreateUser Sample.ada), Sample.db_world);
     (Database.TestErrors (Some "disk_full"), Sample.db_world)]
  = Some Sample.state_ada /\
  Database.health_check Sample.state_ada None =
  Database.health_check Database.initial_fallback None.
Proof.
  split; [reflexivity|].
  assert (H : Database.serve_calls Sample.lib
                (Database.startup Sample.lib (Some "not-a-port") None [])
                [(Database.Users (Database.CreateUser Sample.ada),
                  Sample.db_world);
                 (Database.TestErrors (Some "disk_full"), Sample.db_world)]
              = Some Sample.state_ada) by reflexivity.
  split; [exact H|].
  exact (proj1 (proj2 (proj2
           (X12_mode_is_decided_at_startup Sample.lib (Some "not-a-port")
              None [] _ _ H))) None).
Defined.

(** * Further properties of External mode *)

(** X13: in External mode a write touches the key of its own record only.
    Whatever the body and whatever the link does, a create leaves every
    Redis key other than [user:<id>] holding what it held, [<id>] being the
    id of the body or else the counter; a delete leaves every key other
    than [user:<user_id>] holding what it held; and neither changes the
    in-memory map or the counter. *)
Theorem X13_external_writes_touch_one_key (L : pylib) (st : Database.state)
  (s : Database.rstore) (w : Database.world) :
  Database.redis_client st = Some s ->
  (forall data st' o,
      Database.create_user L st data w = Some (st', o) ->
      exists s',
        st' = Database.with_store st s' /\
        forall key,
          (forall fields,
              data = JObj fields ->
              key <> "user:" ++ py_str L (obj_get_default "id" fields
                                           (JInt (Database.memory_counter st))))
          -> Database.store_get key s' = Database.store_get key s) /\
  (forall user_id,
      exists s',
        fst (Database.delete_user L st user_id w) = Database.with_store st s'
        /\
        forall key,
          key <> Database.user_key_of user_id ->
          Database.store_get key s' = Database.store_get key s).
Proof.
  intros Hmode.
  assert (Hsame : st = Database.with_store st s)
    by (symmetry; now apply with_store_same).
  split.
  - intros data st' o. unfold Database.create_user.
    destruct (negb (truthy data));
      [intros [= <- _]; exists s; split; [exact Hsame|reflexivity]|].
    destruct (py_in L "name" data) as [[|]|e];
      try (intros [= <- _]; exists s; split; [exact Hsame|reflexivity]).
    destruct data as [| b | z | f | x | l | fields];
      try (intros [= <- _]; exists s; split; [exact Hsame|reflexivity]).
    rewrite Hmode.
    set (key0 := "user:" ++ py_str L _).
    unfold Database.run_redis, Database.bind, Database.hset, Database.expire,
      Database.command.
    cbn [Database.store Database.faults].
    destruct (Database.encode_mapping L _) as [enc|];
      destruct (Database.link_faults w) as [|[|] [|[|] ?]];
      destruct (Database.store_get key0 s) as [[[v|old] ttl]|] eqn:Hget;
      cbn [Database.store Database.faults tl fst snd Database.rval
             Database.rttl];
      rewrite ?store_get_put_same, ?Hget;
      cbn [Database.store Database.faults tl fst snd Database.rval
             Database.rttl];
      intros [= <- _]; eexists; (split; [reflexivity|]);
      intros key Hk; specialize (Hk fields eq_refl); fold key0 in Hk;
      rewrite ?store_get_put_other by congruence; reflexivity.
  - intros user_id. unfold Database.delete_user. rewrite Hmode.
    unfold Database.run_redis, Database.bind, Database.exists_key,
      Database.delete_key, Database.command, Database.ret.
    cbn [Database.store Database.faults].
    destruct (Database.link_faults w) as [|[|] [|[|] ?]];
      destruct (Database.store_get (Database.user_key_of user_id) s);
      cbn [Database.store Database.faults tl fst snd];
      eexists; (split; [reflexivity|]); intros key Hk;
      rewrite ?store_get_del_other by congruence; reflexivity.
Qed.

Lemma X13_external_writes_touch_one_key_witness :
  Database.redis_client Sample.external_ada <> None /\
  exists s',
    fst (Database.delete_user Sample.lib Sample.external_ada 2
           Sample.db_world) = Database.with_store Sample.external_ada s' /\
    Database.store_get "user:1" s' =
    Database.store_get "user:1"
      [("user:1",
        {| Database.rval :=
             Database.RHash [("id", "1"); ("name", "Ada"); ("email", "");
                             ("created_at", "4744202124835160064")];
           Database.rttl := Some 3600 |})].
Proof.
  split; [discriminate|].
  destruct (proj2 (X13_external_writes_touch_one_key Sample.lib
                     Sample.external_ada _ Sample.db_world eq_refl) 2)
    as [s' [E H]].
  exists s'. split; [exact E|]. apply H. discriminate.
Defined.



Lemma fetch_users_calm L s keys : forall acc fs,
  forallb negb fs = true ->
  exists fs',
    Database.fetch_users L keys acc
      {| Database.store := s; Database.faults := fs |} =
    (decode_users L s keys acc,
     {| Database.store := s; Database.faults := fs' |}) /\
    forallb negb fs' = true.
Proof.
  induction keys as [|key keys IH]; intros acc fs Hc.
  - exists fs. split; [reflexivity|assumption].
  - cbn [Database.fetch_users decode_users].
    unfold Database.bind, Database.hgetall.
    match goal with
    | |- context [Database.command L ?b _] =>
        destruct (command_calm L b s fs Hc) as [-> Hc']
    end.
    destruct (Database.store_get key s) as [[[v|h] ttl]|];
      cbn [fst snd Database.rval].
    + eexists. split; [reflexivity|assumption].
    + destruct h as [|fv h]; [apply IH; assumption|].
      destruct (Database.user_of_hash L (fv :: h)) as [u|e].
      * apply IH; assumption.
      * eexists. split; [reflexivity|assumption].
    + apply IH; assumption.
Qed.

(** The listing in External mode, on a calm link. *)
Lemma get_users_external_calm L st s w :
  Database.redis_client st = Some s ->
  calm w = true ->
  Database.get_users L st w =
  (st, match decode_users L s (user_keys s) [] with
       | Ok us => Response 200 (Database.users_body st us)
       | Err _ => Response 500 (Database.error_body "Failed to fetch users")
       end).
Proof.
  intros Hmode Hc. unfold Database.get_users, calm in *. rewrite Hmode.
  unfold Database.run_redis, Database.bind, Database.keys_user.
  match goal with
  | |- context [Database.command L ?b _] =>
      destruct (command_calm L b s _ Hc) as [-> Hc']
  end.
  cbn [fst snd].
  destruct (fetch_users_calm L s (filter (prefix "user:") (map fst s)) []
              _ Hc') as [fs' [-> _]].
  cbn [Database.store]. rewrite with_store_same by assumption. reflexivity.
Qed.

Lemma decode_users_undecodable L s keys key :
  In key keys -> undecodable L s key ->
  forall acc, exists x, decode_users L s keys acc = Err x.
Proof.
  intros Hin [e [Hget Hbad]].
  induction keys as [|k keys IH]; [contradiction|]. intros acc.
  cbn [decode_users]. destruct Hin as [->|Hin].
  - rewrite Hget. destruct (Database.rval e) as [v|h]; [eauto|].
    destruct Hbad as [Hne [x Hx]]. rewrite Hx.
    destruct h; [contradiction|eauto].
  - destruct (Database.store_get k s) as [e'|]; [|now apply IH].
    destruct (Database.rval e') as [v|h]; [eauto|].
    destruct h as [|fv h]; [now apply IH|].
    destruct (Database.user_of_hash L (fv :: h)); [now apply IH|eauto].
Qed.

Lemma decode_users_all L s keys : forall acc,
  (forall key, In key keys -> exists u, decodes_to L s key u) ->
  exists us,
    decode_users L s keys acc = Ok (acc ++ us)%list /\
    Forall2 (decodes_to L s) keys us.
Proof.
  induction keys as [|k keys IH]; intros acc H.
  - exists []. split; [now rewrite app_nil_r|constructor].
  - destruct (H k (or_introl eq_refl)) as [u Hu].
    pose proof Hu as [h [ttl [Hget [Hne Hok]]]].
    destruct (IH (acc ++ [u])%list (fun key Hk => H key (or_intror Hk)))
      as [us [E F]].
    exists (u :: us). split; [|now constructor].
    cbn [decode_users]. rewrite Hget. cbn [Database.rval]. rewrite Hok.
    destruct h; [contradiction|]. rewrite E. now rewrite <- app_assoc.
Qed.


(** X15: the listing in External mode, when the link does not fail.  If
    every [user:] key holds hash fields from which a record is rebuilt, the
    listing answers 200 with exactly one record per key, in the order of
    the keys; if a single [user:] key holds a plain string, or fields whose
    [id] or [created_at] does not parse, the whole listing answers 500. *)
Theorem X15_external_listing (L : pylib) (st : Database.state)
  (s : Database.rstore) (w : Database.world) :
  Database.redis_client st = Some s ->
  calm w = true ->
  ((forall key, In key (user_keys s) -> exists u, decodes_to L s key u) ->
   exists us,
     Database.get_users L st w =
     (st, Response 200 (Database.users_body st us)) /\
     Forall2 (decodes_to L s) (user_keys s) us /\
     len us = len (user_keys s)) /\
  (forall key,
      In key (user_keys s) -> undecodable L s key ->
      Database.get_users L st w =
      (st, Response 500 (Database.error_body "Failed to fetch users"))).
Proof.
  intros Hmode Hc. rewrite (get_users_external_calm L st s w Hmode Hc).
  split.
  - intros Hall.
    destruct (decode_users_all L s (user_keys s) [] Hall) as [us [E F]].
    exists us. rewrite E. cbn [app]. split; [reflexivity|].
    split; [exact F|]. unfold len. now rewrite (Forall2_length F).
  - intros key Hin Hbad.
    destruct (decode_users_undecodable L s _ key Hin Hbad []) as [x ->].
    reflexivity.
Qed.

Lemma X15_external_listing_witness :
  Database.redis_client Sample.external_ada <> None /\
  calm Sample.db_world = true /\
  exists us,
    Database.get_users Sample.lib Sample.external_ada Sample.db_world =
    (Sample.external_ada,
     Response 200 (Database.users_body Sample.external_ada us)) /\
    len us = 1.
Proof.
  split; [discriminate|]. split; [reflexivity|].
  destruct (proj1 (X15_external_listing Sample.lib Sample.external_ada _
                     Sample.db_world eq_refl eq_refl)) as [us [E [_ Hl]]].
  - intros key [<-|[]]. exists Sample.ada_record.
    do 2 eexists. split; [reflexivity|]. split; [discriminate|reflexivity].
  - exists us. split; [exact E|exact Hl].
Defined.



(** * The two services together *)

Lemma api_create_outcome L st data w :
  (exists o,
      Api.create_user L st data w = (st, o) /\
      match o with Response status _ => status <> 201 | Raised _ => True end)
  \/
  (exists u,
      Api.id u = Api.user_counter st /\
      Api.create_user L st data w =
      ({| Api.users := (Api.users st ++ [u])%list;
          Api.user_counter := Api.user_counter st + 1 |},
       Response 201 (Api.to_json u))).
Proof.
  unfold Api.create_user.
  destruct (negb (truthy data));
    [left; eexists; split; [reflexivity|discriminate]|].
  destruct (py_in L "name" data) as [[|]|e];
    try (left; eexists; split; [reflexivity|]; first [exact I|discriminate]).
  destruct (Api.subscript_name L data) as [nm|e];
    [|left; eexists; split; [reflexivity|exact I]].
  destruct (Api.get_email L data) as [em|e];
    [|left; eexists; split; [reflexivity|exact I]].
  right. eexists. split; [|reflexivity]. reflexivity.
Qed.

(** The downstream service, in Fallback mode, stores an upstream record as
    it is, under the upstream id. *)
Lemma database_create_mirror L dst u dw :
  Database.redis_client dst = None ->
  Database.create_user L dst (Api.to_json u) dw =
  Some ({| Database.redis_client := None;
           Database.memory_users :=
             Database.dict_set (Database.KInt (Api.id u)) (Api.to_json u)
               (Database.memory_users dst);
           Database.memory_counter :=
             Z.max (Database.memory_counter dst) (Api.id u) + 1 |},
        Response 201 (JObj [("user", Api.to_json u);
                            ("storage", JStr "memory")])).
Proof.
  intros Hmode. unfold Api.to_json.
  destruct (create_fallback_valid L dst
              [("id", JInt (Api.id u)); ("name", Api.name u);
               ("email", Api.email u);
               ("created_at", JFloat (Api.created_at u))] dw Hmode
              eq_refl ltac:(discriminate)) as [z [Hz Hc]].
  cbn in Hz. injection Hz as <-. rewrite Hc.
  unfold Database.created_body, Database.storage. rewrite Hmode.
  reflexivity.
Qed.

Lemma dict_get_mirror l z :
  Database.dict_get (Database.KInt z) (map mirror l) =
  option_map Api.to_json (find (fun u => Api.id u =? z) l).
Proof.
  induction l as [|v l IH]; simpl; [reflexivity|].
  rewrite Z.eqb_sym. destruct (Api.id v =? z); [reflexivity|assumption].
Qed.

Lemma dict_del_mirror l z :
  Database.dict_del (Database.KInt z) (map mirror l) =
  map mirror (filter (fun u => negb (Api.id u =? z)) l).
Proof.
  unfold Database.dict_del.
  induction l as [|v l IH]; [reflexivity|].
  cbn [map filter mirror fst Database.key_eqb].
  rewrite (Z.eqb_sym (Api.id v) z).
  destruct (z =? Api.id v); cbn [negb map]; [exact IH|].
  f_equal. exact IH.
Qed.

Lemma system_handle_in_sync L s r aw dw :
  in_sync s -> api_inv (System.api s) ->
  exists s' o,
    System.handle L s (r, aw, System.Reached dw) = Some (s', o) /\
    in_sync s' /\
    System.api s' = fst (Api.handle L (System.api s) (upstream_of r, aw)).
Proof.
  intros [Hmode Hmem] [_ [_ Hlt]].
  destruct r as [| data | user_id]; cbn [System.handle upstream_of Api.handle].
  - unfold System.get_users, Database.get_users. rewrite Hmode.
    do 2 eexists. split; [reflexivity|]. split; [|reflexivity].
    destruct s; split; assumption.
  - unfold System.create_user.
    destruct (api_create_outcome L (System.api s) data aw)
      as [[o [E Ho]]|[u [Hid E]]]; rewrite E; cbn [fst].
    + destruct o as [status body|e].
      * destruct (Z.eqb_spec status 201); [contradiction|].
        do 2 eexists. split; [reflexivity|]. split; [|reflexivity].
        split; assumption.
      * do 2 eexists. split; [reflexivity|]. split; [|reflexivity].
        split; assumption.
    + cbn [Z.eqb Pos.eqb]. rewrite (database_create_mirror L _ u dw Hmode).
      do 2 eexists. split; [reflexivity|]. split; [|reflexivity].
      split; cbn [System.db System.api Database.redis_client
                    Database.memory_users Api.users]; [reflexivity|].
      rewrite Hmem, map_app. apply dict_set_absent.
      rewrite dict_get_mirror, api_find_fresh; [reflexivity|].
      intros v Hv. specialize (Hlt v Hv). lia.
  - unfold System.delete_user, Api.delete_user.
    destruct (Api.find_user (System.api s) user_id) as [u|] eqn:Hf.
    + cbn [Z.eqb Pos.eqb fst]. unfold Database.delete_user.
      rewrite Hmode, Hmem, dict_get_mirror.
      unfold Api.find_user in Hf. rewrite Hf. cbn [option_map fst].
      do 2 eexists. split; [reflexivity|]. split; [|reflexivity].
      split; cbn [System.db System.api Database.redis_client
                    Database.memory_users Api.users]; [reflexivity|].
      apply dict_del_mirror.
    + cbn [Z.eqb Pos.eqb fst].
      do 2 eexists. split; [reflexivity|]. split; [|reflexivity].
      split; assumption.
Qed.

Lemma in_sync_initial : in_sync System.initial.
Proof. split; reflexivity. Qed.

(** X17: a record created through the upstream service is mirrored as it
    is.  When the downstream service is in Fallback mode and is reached,
    a create with a dict body that has a [name] is answered 201 by the
    upstream service with a record under which the downstream service then
    answers, for the same id, that very record: it neither renumbers nor
    alters it. *)
Theorem X17_mirrored_record_is_the_upstream_record (L : pylib)
  (s : System.state) (fields : list (string * json)) (nm : json)
  (aw : Api.world) (dw dw' : Database.world) :
  Database.redis_client (System.db s) = None ->
  obj_get "name" fields = Some nm ->
  exists s' u,
    System.create_user L s (JObj fields) aw (System.Reached dw) =
    Some (s', Response 201 (Api.to_json u)) /\
    Api.id u = Api.user_counter (System.api s) /\
    Database.get_user L (System.db s') (Api.id u) dw' =
    (System.db s',
     Response 200 (JObj [("user", Api.to_json u);
                         ("storage", JStr "memory")])).
Proof.
  intros Hmode Hn. unfold System.create_user.
  rewrite (api_create_dict L _ fields nm aw Hn). cbv zeta.
  cbn [Z.eqb Pos.eqb].
  rewrite (database_create_mirror L _ _ dw Hmode).
  do 2 eexists. split; [reflexivity|]. split; [reflexivity|].
  unfold Database.get_user.
  cbn [System.db Database.redis_client Database.memory_users Api.id].
  rewrite dict_get_set_same. reflexivity.
Qed.

Lemma X17_mirrored_record_is_the_upstream_record_witness :
  Database.redis_client (System.db System.initial) = None /\
  obj_get "name" [("name", JStr "Ada")] = Some (JStr "Ada") /\
  exists s' u,
    System.create_user Sample.lib System.initial Sample.ada
      (Sample.api_world Sample.unreachable) (System.Reached Sample.db_world)
    = Some (s', Response 201 (Api.to_json u)) /\
    Database.get_user Sample.lib (System.db s') (Api.id u) Sample.db_world =
    (System.db s',
     Response 200 (JObj [("user", Api.to_json u);
                         ("storage", JStr "memory")])).
Proof.
  split; [reflexivity|]. split; [reflexivity|].
  destruct (X17_mirrored_record_is_the_upstream_record Sample.lib
              System.initial [("name", JStr "Ada")] (JStr "Ada")
              (Sample.api_world Sample.unreachable) Sample.db_world
              Sample.db_world eq_refl eq_refl) as [s' [u [H1 [_ H2]]]].
  exists s', u. split; [exact H1|exact H2].
Defined.

(** X18: as long as every call reaches the downstream service (in Fallback
    mode), the two tiers stay in step: after any sequence of list, create
    and delete requests to the upstream service, no request is outside the
    model, the downstream map lists exactly the upstream users, in the same
    order, and the merged listing therefore holds every user twice, its
    [count] being twice the number of users. *)
Theorem X18_tiers_in_step_and_listing_doubled (L : pylib)
  (rqs : list (System.request * Api.world * System.net))
  (aw : Api.world) (dw : Database.world) :
  System.all_reached rqs = true ->
  exists s,
    System.serve L System.initial rqs = Some s /\
    Database.dict_values (Database.memory_users (System.db s)) =
    map Api.to_json (Api.users (System.api s)) /\
    System.api s = Api.serve L Api.initial
                     (map (fun rq => (upstream_of (fst (fst rq)), snd (fst rq)))
                        rqs) /\
    let local := map Api.to_json (Api.users (System.api s)) in
    snd (System.get_users L s aw (System.Reached dw)) =
    Response 200 (JObj [("users", JArr (local ++ local));
                        ("count", JInt (2 * len local));
                        ("source", JStr "api-service")]).
Proof.
  intros Hall.
  assert (G : forall rqs s0,
             System.all_reached rqs = true ->
             in_sync s0 -> api_inv (System.api s0) ->
             exists s,
               System.serve L s0 rqs = Some s /\ in_sync s /\
               System.api s =
               Api.serve L (System.api s0)
                 (map (fun rq => (upstream_of (fst (fst rq)), snd (fst rq)))
                    rqs)).
  { clear. intros rqs.
    induction rqs as [|[[r aw] n] rqs IH]; intros s0 Hall Hs Ha.
    - exists s0. split; [reflexivity|]. split; [assumption|reflexivity].
    - cbn [System.all_reached forallb snd] in Hall.
      apply andb_prop in Hall. destruct Hall as [Hn Hall].
      destruct n as [dw|e]; [|discriminate Hn].
      destruct (system_handle_in_sync L s0 r aw dw Hs Ha)
        as [s1 [o [Hh [Hs1 Hapi]]]].
      assert (Ha1 : api_inv (System.api s1)).
      { rewrite Hapi. exact (proj1 (api_handle_inv L _ _ Ha)). }
      destruct (IH s1 Hall Hs1 Ha1) as [s [E [Hsync Hs']]].
      exists s. cbn [System.serve]. rewrite Hh.
      split; [exact E|]. split; [exact Hsync|].
      rewrite Hs', Hapi. reflexivity. }
  destruct (G rqs System.initial Hall in_sync_initial api_inv_initial)
    as [s [E [[Hmode Hmem] Hapi]]].
  exists s. split; [exact E|].
  assert (Hv : Database.dict_values (Database.memory_users (System.db s)) =
               map Api.to_json (Api.users (System.api s))).
  { unfold Database.dict_values. rewrite Hmem, map_map. reflexivity. }
  split; [exact Hv|]. split; [exact Hapi|].
  cbv zeta. unfold System.get_users, Database.get_users. rewrite Hmode.
  cbn [snd as_reply]. unfold Api.get_users.
  cbn [System.with_downstream Api.downstream Z.eqb Pos.eqb
         Database.users_body obj_get_default obj_get String.eqb Ascii.eqb
         Bool.eqb].
  rewrite Hv.
  assert (Hl : forall l : list json, len (l ++ l) = 2 * len l)
    by (intros l; unfold len; rewrite length_app; lia).
  now rewrite Hl.
Qed.

Lemma X18_tiers_in_step_and_listing_doubled_witness :
  exists s,
    System.serve Sample.lib System.initial
      [(System.CreateUser Sample.ada, Sample.api_world Sample.unreachable,
        System.Reached Sample.db_world)] = Some s /\
    Database.dict_values (Database.memory_users (System.db s)) =
    map Api.to_json (Api.users (System.api s)).
Proof.
  destruct (X18_tiers_in_step_and_listing_doubled Sample.lib
              [(System.CreateUser Sample.ada,
                Sample.api_world Sample.unreachable,
                System.Reached Sample.db_world)]
              (Sample.api_world Sample.unreachable) Sample.db_world eq_refl)
    as [s [E [Hv _]]].
  exists s. split; [exact E|exact Hv].
Defined.


